(** * ladok3: the LadokSession class of ladok3.py

    A shallow embedding of the session component of [ladok3.py]: the
    identifier normaliser ([__validate_person_nr], [__validate_date]), the
    credential handshake ([__init__]), the result reconciler ([get_results]),
    the result upsert ([save_result]), the sign-out ([logout]) and some of
    the plain accessors, with the private methods they call; and the two
    name look-ups of [ladok3_course_instance_to_spreadsheet.py].

    Python strings are modelled as [string], read as sequences of code points
    below 256 (Latin-1); the character classes of the regular expressions are
    those of Python 3's [re] on that range. *)

From Stdlib Require Import Bool Arith ZArith List Ascii String Lia.
From Stdlib Require Import DecimalString.
Import ListNotations.
Local Open Scope string_scope.
Set Warnings "-register-all".

(** ** Python strings *)

Module PyStr.

(** The one-character string holding a double quote. *)
Definition dquote : ascii := "034"%char.
Definition newline : ascii := "010"%char.

(** [s.startswith(p)], returning what follows [p]. *)
Fixpoint strip_prefix (p s : string) : option string :=
  match p with
  | EmptyString => Some s
  | String a p' =>
      match s with
      | String b s' => if Ascii.eqb a b then strip_prefix p' s' else None
      | EmptyString => None
      end
  end.

(** [sub in s] for two strings: [sub] occurs in [s] as a contiguous run. *)
Fixpoint str_in (sub s : string) : bool :=
  match strip_prefix sub s with
  | Some _ => true
  | None =>
      match s with
      | String _ s' => str_in sub s'
      | EmptyString => false
      end
  end.

(** [x in l] for a list of strings. *)
Definition list_in (x : string) (l : list string) : bool :=
  existsb (String.eqb x) l.

Definition is_digit (a : ascii) : bool :=
  let n := nat_of_ascii a in ((48 <=? n) && (n <=? 57))%nat.

(** [\w] of Python 3 on code points below 256: letters, digits, the
    underscore and the Latin-1 characters that [str.isalnum] accepts. *)
Definition is_word (a : ascii) : bool :=
  let n := nat_of_ascii a in
  (((48 <=? n) && (n <=? 57)) || ((65 <=? n) && (n <=? 90)) || (n =? 95)
   || ((97 <=? n) && (n <=? 122))
   || (n =? 170) || (n =? 178) || (n =? 179) || (n =? 181) || (n =? 185)
   || (n =? 186) || (n =? 188) || (n =? 189) || (n =? 190)
   || ((192 <=? n) && (n <=? 214)) || ((216 <=? n) && (n <=? 246))
   || ((248 <=? n) && (n <=? 255)))%nat.

Definition digit_val (a : ascii) : Z := Z.of_nat (nat_of_ascii a) - 48.

(** The strings of two and of four given characters. *)
Definition str2 (a b : ascii) : string := String a (String b EmptyString).
Definition str4 (a b c d : ascii) : string :=
  String a (String b (String c (String d EmptyString))).

(** [int(s)] for a string of decimal digits. *)
Definition py_int (s : string) : Z :=
  fold_left (fun acc a => (10 * acc + digit_val a)%Z)
            (list_ascii_of_string s) 0%Z.

End PyStr.

(** ** Regular expressions: the fragment of [re] that the module uses *)

Module Re.
Import PyStr.

Inductive cclass : Type :=
  | CDigit                          (* \d *)
  | CWord                           (* \w *)
  | CDot                            (* .  *)
  | COneOf (l : list ascii)         (* [abc]  *)
  | CNoneOf (l : list ascii).       (* [^abc] *)

Definition in_class (c : cclass) (a : ascii) : bool :=
  match c with
  | CDigit => is_digit a
  | CWord => is_word a
  | CDot => negb (Ascii.eqb a newline)
  | COneOf l => existsb (Ascii.eqb a) l
  | CNoneOf l => negb (existsb (Ascii.eqb a) l)
  end.

Inductive regex : Type :=
  | RChr (c : cclass)
  | RLit (s : string)
  | RSeq (r1 r2 : regex)
  | ROpt (r : regex)                (* r?   greedy *)
  | RAlt (r1 r2 : regex)            (* r1|r2 *)
  | RLazyStar (c : cclass)          (* c*?  *)
  | RPlus (c : cclass)              (* c+   greedy *)
  | REos                            (* $    *)
  | RGroup (n : nat) (r : regex).   (* (r), numbered *)

(** The groups captured so far, latest first. *)
Definition groups : Type := list (nat * string).

Fixpoint lookup_group (n : nat) (g : groups) : option string :=
  match g with
  | [] => None
  | (m, s) :: g' => if Nat.eqb m n then Some s else lookup_group n g'
  end.

(** [$] without MULTILINE: at the end, or before a final newline. *)
Definition at_end (s : string) : bool :=
  match s with
  | EmptyString => true
  | String a EmptyString => Ascii.eqb a newline
  | _ => false
  end.

Section Engine.
Context {R : Type}.

(** [c*?] followed by [k]: the shortest run first.  [k] receives the run
    that was read and what is left. *)
Fixpoint lazy_star (c : cclass) (k : string -> string -> option R)
    (s : string) : option R :=
  match k EmptyString s with
  | Some x => Some x
  | None =>
      match s with
      | String a s' =>
          if in_class c a
          then lazy_star c (fun run rest => k (String a run) rest) s'
          else None
      | EmptyString => None
      end
  end.

(** [c*] followed by [k]: the longest run first. *)
Fixpoint greedy_star (c : cclass) (k : string -> string -> option R)
    (s : string) : option R :=
  match s with
  | String a s' =>
      if in_class c a then
        match greedy_star c (fun run rest => k (String a run) rest) s' with
        | Some x => Some x
        | None => k EmptyString s
        end
      else k EmptyString s
  | EmptyString => k EmptyString s
  end.

(** The backtracking matcher: [run r s g k] matches [r] at the start of
    [s] and hands the text it read, what is left and the groups to [k];
    when [k] fails the next alternative of [r] is tried. *)
Fixpoint run (r : regex) (s : string) (g : groups)
    (k : string -> string -> groups -> option R) : option R :=
  match r with
  | RChr c =>
      match s with
      | String a s' =>
          if in_class c a then k (String a EmptyString) s' g else None
      | EmptyString => None
      end
  | RLit l =>
      match strip_prefix l s with
      | Some s' => k l s' g
      | None => None
      end
  | RSeq r1 r2 =>
      run r1 s g (fun t1 s' g' =>
        run r2 s' g' (fun t2 s'' g'' => k (t1 ++ t2) s'' g''))
  | ROpt r1 =>
      match run r1 s g k with
      | Some x => Some x
      | None => k EmptyString s g
      end
  | RAlt r1 r2 =>
      match run r1 s g k with
      | Some x => Some x
      | None => run r2 s g k
      end
  | RLazyStar c => lazy_star c (fun t s' => k t s' g) s
  | RPlus c =>
      match s with
      | String a s' =>
          if in_class c a
          then greedy_star c (fun t s'' => k (String a t) s'' g) s'
          else None
      | EmptyString => None
      end
  | REos => if at_end s then k EmptyString s g else None
  | RGroup n r1 => run r1 s g (fun t s' g' => k t s' ((n, t) :: g'))
  end.
End Engine.

(** A match object: the text matched and the groups. *)
Record match_obj : Type := MkMatch { matched : string; mgroups : groups }.

(** [m.group(n)]; [None] when the group took no part in the match. *)
Definition group (m : match_obj) (n : nat) : option string :=
  lookup_group n (mgroups m).

(** [m.group(n)] where the pattern guarantees the group. *)
Definition group_str (m : match_obj) (n : nat) : string :=
  match group m n with
  | Some s => s
  | None => EmptyString
  end.

(** [re.match(r, s)]: a match at the start of [s]. *)
Definition re_match (r : regex) (s : string) : option match_obj :=
  run r s [] (fun t _ g => Some (MkMatch t g)).

(** [re.search(r, s)]: the first position of [s] with a match. *)
Fixpoint re_search (r : regex) (s : string) : option match_obj :=
  match re_match r s with
  | Some m => Some m
  | None =>
      match s with
      | String _ s' => re_search r s'
      | EmptyString => None
      end
  end.

(** Every character of [s] is in the class [c]. *)
Fixpoint all_in (c : cclass) (s : string) : bool :=
  match s with
  | EmptyString => true
  | String a s' => in_class c a && all_in c s'
  end.

(** The words of a pattern, independently of the matcher.  The anchor [$]
    reads nothing, so it contributes the empty word. *)
Inductive lang : regex -> string -> Prop :=
  | LChr c a : in_class c a = true -> lang (RChr c) (String a EmptyString)
  | LLit l : lang (RLit l) l
  | LSeq r1 r2 s1 s2 : lang r1 s1 -> lang r2 s2 -> lang (RSeq r1 r2) (s1 ++ s2)
  | LOptNone r : lang (ROpt r) EmptyString
  | LOptSome r s : lang r s -> lang (ROpt r) s
  | LAltL r1 r2 s : lang r1 s -> lang (RAlt r1 r2) s
  | LAltR r1 r2 s : lang r2 s -> lang (RAlt r1 r2) s
  | LStar c s : all_in c s = true -> lang (RLazyStar c) s
  | LPlus c a s :
      in_class c a = true -> all_in c s = true -> lang (RPlus c) (String a s)
  | LEos : lang REos EmptyString
  | LGroup n r s : lang r s -> lang (RGroup n r) s.

(** Patterns without the anchor [$]. *)
Fixpoint eos_free (r : regex) : bool :=
  match r with
  | REos => false
  | RSeq r1 r2 | RAlt r1 r2 => eos_free r1 && eos_free r2
  | ROpt r1 | RGroup _ r1 => eos_free r1
  | _ => true
  end.

End Re.

(** ** Identifier normaliser *)

Module Normalizer.
Import PyStr Re.

Notation "r1 +++ r2" := (RSeq r1 r2) (at level 60, right associativity).

Definition d : regex := RChr CDigit.
Definition w : regex := RChr CWord.

(** ["(\d\d)?(\d\d)(\d\d\d\d)[+\-]?(\w\w\w\w)"] *)
Definition pnrregex : regex :=
  ROpt (RGroup 1 (d +++ d)) +++ RGroup 2 (d +++ d)
  +++ RGroup 3 (d +++ d +++ d +++ d)
  +++ ROpt (RChr (COneOf ["+"; "-"]%char))
  +++ RGroup 4 (w +++ w +++ w +++ w).

(** ["(\d\d)?(\d\d)-?(\d\d)-?(\d\d)"] *)
Definition datregex : regex :=
  ROpt (RGroup 1 (d +++ d)) +++ RGroup 2 (d +++ d)
  +++ ROpt (RLit "-") +++ RGroup 3 (d +++ d)
  +++ ROpt (RLit "-") +++ RGroup 4 (d +++ d).

(** [__validate_person_nr]; [now_year] is [datetime.datetime.now().year].
    Returns None or a LADOK-formatted person nr. *)
Definition __validate_person_nr (now_year : Z) (person_nr_raw : string)
  : option string :=
  match re_match pnrregex person_nr_raw with
  | Some pnr =>
      match group pnr 1 with
      | None =>
          if (now_year - 2000 >=? py_int (group_str pnr 2) + 5)%Z
          then Some ("20" ++ group_str pnr 2 ++ group_str pnr 3
                          ++ group_str pnr 4)
          else Some ("19" ++ group_str pnr 2 ++ group_str pnr 3
                          ++ group_str pnr 4)
      | Some g1 =>
          Some (g1 ++ group_str pnr 2 ++ group_str pnr 3 ++ group_str pnr 4)
      end
  | None => None
  end.

(** [__validate_date]: returns None or a LADOK-formatted date. *)
Definition __validate_date (date_raw : string) : option string :=
  match re_match datregex date_raw with
  | Some dat =>
      match group dat 1 with
      | None =>
          Some ("20" ++ group_str dat 2 ++ "-" ++ group_str dat 3 ++ "-"
                     ++ group_str dat 4)
      | Some g1 =>
          Some (g1 ++ group_str dat 2 ++ "-" ++ group_str dat 3 ++ "-"
                   ++ group_str dat 4)
      end
  | None => None
  end.

End Normalizer.

(** ** Python values: exceptions and decoded JSON *)

Module Py.
Import PyStr.

Inductive exn : Type :=
  | Exception (msg : string)
  | StopIteration
  | TypeError
  | KeyError (key : string)
  | IndexError
  | ValueError
  | AttributeError
  | UnboundLocalError
  | JSONDecodeError
  | ConnectionError.

(** The outcome of an expression: a value or a raised exception. *)
Inductive result (A : Type) : Type :=
  | Ok (a : A)
  | Raise (e : exn).
Arguments Ok {A} a.
Arguments Raise {A} e.

Definition rbind {A B : Type} (r : result A) (f : A -> result B) : result B :=
  match r with
  | Ok a => f a
  | Raise e => Raise e
  end.

(** What [json.loads] builds: None, bool, int, str, list and dict with
    string keys (in the order of the document). *)
Inductive json : Type :=
  | JNull
  | JBool (b : bool)
  | JNum (z : Z)
  | JStr (s : string)
  | JArr (l : list json)
  | JObj (l : list (string * json)).

Fixpoint lookup {A : Type} (k : string) (l : list (string * A)) : option A :=
  match l with
  | [] => None
  | (k', v) :: l' => if String.eqb k' k then Some v else lookup k l'
  end.

(** [d[k] = v] on a dict with string keys: an existing key keeps its place. *)
Fixpoint dict_set {A : Type} (k : string) (v : A) (l : list (string * A))
  : list (string * A) :=
  match l with
  | [] => [(k, v)]
  | (k', v') :: l' =>
      if String.eqb k' k then (k', v) :: l' else (k', v') :: dict_set k v l'
  end.

(** [j[k]] for a string [k]. *)
Definition subscript (j : json) (k : string) : result json :=
  match j with
  | JObj l =>
      match lookup k l with
      | Some v => Ok v
      | None => Raise (KeyError k)
      end
  | _ => Raise TypeError
  end.

(** [a == b]; [True] and [False] compare as 1 and 0, dicts regardless of
    the order of their keys. *)
Fixpoint py_eq (a b : json) : bool :=
  match a, b with
  | JNull, JNull => true
  | JBool x, JBool y => Bool.eqb x y
  | JBool x, JNum y => (Z.b2z x =? y)%Z
  | JNum x, JBool y => (x =? Z.b2z y)%Z
  | JNum x, JNum y => (x =? y)%Z
  | JStr x, JStr y => String.eqb x y
  | JArr l, JArr m =>
      (fix go (l m : list json) : bool :=
         match l, m with
         | [], [] => true
         | x :: l', y :: m' => py_eq x y && go l' m'
         | _, _ => false
         end) l m
  | JObj l, JObj m =>
      (List.length l =? List.length m)%nat &&
      (fix go (l : list (string * json)) : bool :=
         match l with
         | [] => true
         | (k, v) :: l' =>
             match lookup k m with
             | Some v' => py_eq v v'
             | None => false
             end && go l'
         end) l
  | _, _ => false
  end.

(** [k in j] for a string [k]. *)
Definition contains (k : string) (j : json) : result bool :=
  match j with
  | JObj l => Ok (match lookup k l with Some _ => true | None => false end)
  | JArr l => Ok (existsb (py_eq (JStr k)) l)
  | JStr s => Ok (str_in k s)
  | _ => Raise TypeError
  end.

(** [len(j)]. *)
Definition py_len (j : json) : result nat :=
  match j with
  | JObj l => Ok (List.length l)
  | JArr l => Ok (List.length l)
  | JStr s => Ok (String.length s)
  | _ => Raise TypeError
  end.

(** [j[0]]. *)
Definition subscript0 (j : json) : result json :=
  match j with
  | JArr (x :: _) => Ok x
  | JStr (String a _) => Ok (JStr (String a EmptyString))
  | JArr [] | JStr EmptyString => Raise IndexError
  | JObj _ => Raise (KeyError "0")
  | _ => Raise TypeError
  end.

(** The items of [for x in j]. *)
Definition iterate (j : json) : result (list json) :=
  match j with
  | JArr l => Ok l
  | JObj l => Ok (map (fun kv => JStr (fst kv)) l)
  | JStr s =>
      Ok (map (fun a => JStr (String a EmptyString)) (list_ascii_of_string s))
  | _ => Raise TypeError
  end.

(** Truth value of [j] in a condition. *)
Definition truthy (j : json) : bool :=
  match j with
  | JNull => false
  | JBool b => b
  | JNum z => negb (z =? 0)%Z
  | JStr s => negb (String.eqb s EmptyString)
  | JArr l => match l with [] => false | _ => true end
  | JObj l => match l with [] => false | _ => true end
  end.

(** Values that can be dict keys. *)
Definition hashable (j : json) : bool :=
  match j with
  | JArr _ | JObj _ => false
  | _ => true
  end.

(** ['...' + j]: concatenation wants a [str]. *)
Definition as_str (j : json) : result string :=
  match j with
  | JStr s => Ok s
  | _ => Raise TypeError
  end.

Definition str_of_Z (z : Z) : string := NilZero.string_of_int (Z.to_int z).

(** [str(j)]; [repr] renders lists and dicts. *)
Definition py_str (repr : json -> string) (j : json) : string :=
  match j with
  | JNull => "None"
  | JBool true => "True"
  | JBool false => "False"
  | JNum z => str_of_Z z
  | JStr s => s
  | _ => repr j
  end.

(** [int(j)]; [int_of_str] parses a string. *)
Definition py_int_of (int_of_str : string -> option Z) (j : json) : result Z :=
  match j with
  | JNum z => Ok z
  | JBool b => Ok (Z.b2z b)
  | JStr s =>
      match int_of_str s with
      | Some z => Ok z
      | None => Raise ValueError
      end
  | _ => Raise TypeError
  end.


Fixpoint jdict_set {A : Type} (k : json) (v : A) (l : list (json * A))
  : list (json * A) :=
  match l with
  | [] => [(k, v)]
  | (k', v') :: l' =>
      if py_eq k' k then (k', v) :: l' else (k', v') :: jdict_set k v l'
  end.

(** The assignments [d[k] = v] for the pairs of [l], in order. *)
Definition writes {A : Type} (l : list (json * A)) (d : list (json * A))
  : list (json * A) :=
  fold_left (fun d kv => jdict_set (fst kv) (snd kv) d) l d.


Definition hashable_keys {A : Type} (d : list (json * A)) : Prop :=
  Forall (fun kv => hashable (fst kv) = true) d.


End Py.

(** ** The session: requests, the object and its methods *)

Module Session.
Import PyStr Re Normalizer Py.

Inductive method : Type := GET | POST | PUT.

(** What a request carries: nothing, a form ([data=]) or a document
    ([json=]). *)
Inductive payload : Type :=
  | NoData
  | Form (data : list (string * string))
  | Json (j : json).

Record request : Type := MkRequest {
  req_method : method;
  req_url : string;
  req_headers : list (string * string);
  req_data : payload
}.

(** A response of [requests]: [json_body] is what [r.json()] decodes, None
    when the body is not JSON; [set_cookie] the cookies it sets. *)
Record response : Type := MkResponse {
  status_code : Z;
  url : string;
  text : string;
  json_body : option json;
  set_cookie : list (string * string)
}.

Definition resp_json (r : response) : result json :=
  match json_body r with
  | Some j => Ok j
  | None => Raise JSONDecodeError
  end.

(** What the program does not define: the remote services, which answer a
    request knowing the requests made before it, the clock and the library
    functions [urllib.parse.unquote], [html.unescape], [int] on a string and
    [repr]. *)
Record env : Type := MkEnv {
  server : list request -> request -> result response;
  now_year : Z;
  unquote : string -> string;
  html_unescape : string -> string;
  int_of_str : string -> option Z;
  repr : json -> string
}.

(** The dicts that the class builds, with the keys of the source. *)
Record Grade : Type := MkGrade {
  grade_id : Z;                     (* 'id' *)
  grade_code : json;                (* 'code' *)
  grade_accepted : json             (* 'accepted' *)
}.

Record GradeScale : Type := MkGradeScale {
  scale_id : Z;                     (* 'id' *)
  scale_code : json;                (* 'code' *)
  scale_name : json;                (* 'name' *)
  scale_grades : list Grade         (* 'grades' *)
}.

Record Student : Type := MkStudent {
  student_id : json;                (* 'id' *)
  first_name : json;
  last_name : json;
  person_nr : json;
  alive : bool
}.

Record Course : Type := MkCourse {
  course_id : json;                 (* 'id' *)
  round_id : json;
  education_id : json;
  instance_id : json;
  course_code : json;               (* 'code' *)
  course_name : json                (* 'name' *)
}.

Record Moment : Type := MkMoment {
  course_moment_id : json;
  moment_code : json;               (* 'code' *)
  moment_education_id : json;       (* 'education_id' *)
  moment_name : json                (* 'name' *)
}.

Record Pending : Type := MkPending {
  pending_id : json;                (* 'id' *)
  moment_id : json;
  pending_grade : option Grade;     (* 'grade' *)
  pending_date : json;              (* 'date' *)
  pending_grade_scale : GradeScale; (* 'grade_scale' *)
  last_modified : json
}.

Record Attested : Type := MkAttested {
  attested_id : json;               (* 'id' *)
  attested_moment_id : json;        (* 'moment_id' *)
  attested_grade : option Grade;    (* 'grade' *)
  attested_date : json;             (* 'date' *)
  attested_grade_scale : GradeScale (* 'grade_scale' *)
}.

Record CourseResult : Type := MkCourseResult {
  result_education_id : json;       (* 'education_id' *)
  pending : option Pending;
  attested : option Attested
}.

Record CourseResults : Type := MkCourseResults {
  results_id : json;                (* 'id' *)
  results : list CourseResult
}.

(** An entry of the dict that [get_results] returns. *)
Record ResultEntry : Type := MkEntry {
  grade : json;
  status : string;
  date : json
}.

(** The attributes of a [LadokSession]; [session] tells whether
    [self.__session] holds the [requests] session or None. *)
Record LadokSession : Type := MkLadokSession {
  base_url : string;
  base_gui_url : string;
  base_gui_proxy_url : string;
  signed_in : bool;
  session : bool;
  headers : list (string * string);
  grade_scales : list GradeScale;
  grade_by_id : list (Z * (GradeScale * Grade))
}.

(** The state a method runs in: the object, the cookies of the [requests]
    session that [__init__] created, the requests made so far (oldest
    first) and what was printed. *)
Record world : Type := MkWorld {
  self : LadokSession;
  cookies : list (string * string);
  trace : list request;
  stdout : list string
}.

Definition set_signed_in (b : bool) (o : LadokSession) : LadokSession :=
  MkLadokSession (base_url o) (base_gui_url o) (base_gui_proxy_url o) b
    (session o) (headers o) (grade_scales o) (grade_by_id o).

Definition set_session (b : bool) (o : LadokSession) : LadokSession :=
  MkLadokSession (base_url o) (base_gui_url o) (base_gui_proxy_url o)
    (signed_in o) b (headers o) (grade_scales o) (grade_by_id o).

Definition set_grade_scales (l : list GradeScale) (o : LadokSession)
  : LadokSession :=
  MkLadokSession (base_url o) (base_gui_url o) (base_gui_proxy_url o)
    (signed_in o) (session o) (headers o) l (grade_by_id o).

Definition set_grade_by_id (d : list (Z * (GradeScale * Grade)))
    (o : LadokSession) : LadokSession :=
  MkLadokSession (base_url o) (base_gui_url o) (base_gui_proxy_url o)
    (signed_in o) (session o) (headers o) (grade_scales o) d.

(** *** Statements: state and exceptions *)

Definition M (A : Type) : Type := world -> result A * world.

Definition ret {A : Type} (a : A) : M A := fun w => (Ok a, w).

Definition raise {A : Type} (e : exn) : M A := fun w => (Raise e, w).

Definition lift {A : Type} (r : result A) : M A := fun w => (r, w).

Definition bind {A B : Type} (m : M A) (f : A -> M B) : M B :=
  fun w =>
    match m w with
    | (Ok a, w') => f a w'
    | (Raise e, w') => (Raise e, w')
    end.

Definition get_self : M LadokSession := fun w => (Ok (self w), w).

Definition modify_self (f : LadokSession -> LadokSession) : M unit :=
  fun w => (Ok tt, MkWorld (f (self w)) (cookies w) (trace w) (stdout w)).

Definition print (s : string) : M unit :=
  fun w =>
    (Ok tt, MkWorld (self w) (cookies w) (trace w) (stdout w ++ [s])%list).

Declare Scope py_scope.
Delimit Scope py_scope with py.
Notation "x <- m ;; f" := (bind m (fun x => f))
  (at level 61, m at next level, right associativity) : py_scope.
Notation "m ;;; f" := (bind m (fun _ => f))
  (at level 61, right associativity) : py_scope.
Notation "x <-- r ;; f" := (rbind r (fun x => f))
  (at level 61, r at next level, right associativity) : py_scope.
Local Open Scope py_scope.

(** A list comprehension whose element expression may raise. *)
Fixpoint mapR {A B : Type} (f : A -> result B) (l : list A)
  : result (list B) :=
  match l with
  | [] => Ok []
  | x :: l' => y <-- f x ;; ys <-- mapR f l' ;; Ok (y :: ys)
  end.

(** [next(x for x in l if p x)]. *)
Definition next {A : Type} (p : A -> bool) (l : list A) : result A :=
  match find p l with
  | Some x => Ok x
  | None => Raise StopIteration
  end.

(** [d[k] = v] on a dict with integer keys. *)
Fixpoint zdict_set {A : Type} (k : Z) (v : A) (l : list (Z * A))
  : list (Z * A) :=
  match l with
  | [] => [(k, v)]
  | (k', v') :: l' =>
      if (k' =? k)%Z then (k', v) :: l' else (k', v') :: zdict_set k v l'
  end.

(** A string that a condition accepts: not None and not empty. *)
Definition nonempty (o : option string) : option string :=
  match o with
  | Some s => if String.eqb s EmptyString then None else Some s
  | None => None
  end.

(** *** The patterns of the handshake

    In the comments below Q stands for the double quote character. *)

Definition q : string := String dquote EmptyString.

(** ['return=(.*?)(&|$)'] *)
Definition return_re : regex :=
  RLit "return=" +++ RGroup 1 (RLazyStar CDot)
  +++ RGroup 2 (RAlt (RLit "&") REos).

(** [<form id=Qfm1Q action=Q(.*?)Q method=QpostQ>] *)
Definition fm1_re : regex :=
  RLit ("<form id=" ++ q ++ "fm1" ++ q ++ " action=" ++ q)
  +++ RGroup 1 (RLazyStar CDot)
  +++ RLit (q ++ " method=" ++ q ++ "post" ++ q ++ ">").

(** [<input type=QhiddenQ name=QltQ value=Q(.*?)Q />] and the same for
    the name [execution]. *)
Definition hidden_re (name : string) : regex :=
  RLit ("<input type=" ++ q ++ "hidden" ++ q ++ " name=" ++ q ++ name ++ q
          ++ " value=" ++ q)
  +++ RGroup 1 (RLazyStar CDot) +++ RLit (q ++ " />").

(** [<form action=Q(.*?)Q method=QpostQ>] *)
Definition action_re : regex :=
  RLit ("<form action=" ++ q) +++ RGroup 1 (RLazyStar CDot)
  +++ RLit (q ++ " method=" ++ q ++ "post" ++ q ++ ">").

(** [<input type=QhiddenQ name=QRelayStateQ value=Q([^Q]+)Q\/>] *)
Definition relay_state_re : regex :=
  RLit ("<input type=" ++ q ++ "hidden" ++ q ++ " name=" ++ q ++ "RelayState"
          ++ q ++ " value=" ++ q)
  +++ RGroup 1 (RPlus (CNoneOf [dquote])) +++ RLit (q ++ "/>").

(** [<input type=QhiddenQ name=QSAMLResponseQ value=Q(.*?)Q/>] *)
Definition saml_response_re : regex :=
  RLit ("<input type=" ++ q ++ "hidden" ++ q ++ " name=" ++ q
          ++ "SAMLResponse" ++ q ++ " value=" ++ q)
  +++ RGroup 1 (RLazyStar CDot) +++ RLit (q ++ "/>").

(** [m.group(1)] where [m] may be None; the first group of each of these
    patterns takes part in every match. *)
Definition group1 (m : option match_obj) : result string :=
  match m with
  | Some m => Ok (group_str m 1)
  | None => Raise AttributeError
  end.

(** ['Din användare finns inte i Ladok'] *)
Definition not_a_teacher_marker : string :=
  "Din anv" ++ String (ascii_of_nat 228) "ndare finns inte i Ladok".

Definition accept : string :=
  "application/vnd.ladok-resultat+json, application/vnd.ladok-kataloginformation+json, application/vnd.ladok-studentinformation+json, application/vnd.ladok-studiedeltagande+json, application/vnd.ladok-utbildningsinformation+json, application/vnd.ladok-examen+json, application/vnd.ladok-extintegration+json, application/vnd.ladok-uppfoljning+json, application/vnd.ladok-extra+json, application/json, text/plain".

Section Methods.
Variable E : env.

(** *** Requests *)

(** A call of the [requests] session: the request is recorded, the
    service answers from what it has seen, the cookies it sets are kept. *)
Definition http (rq : request) : M response :=
  fun w =>
    match server E (trace w) rq with
    | Ok r =>
        (Ok r,
         MkWorld (self w)
           (fold_left (fun c kv => dict_set (fst kv) (snd kv) c)
                      (set_cookie r) (cookies w))
           (trace w ++ [rq])%list (stdout w))
    | Raise e =>
        (Raise e,
         MkWorld (self w) (cookies w) (trace w ++ [rq])%list (stdout w))
    end.

(** [self.__session.get(url = u, headers = self.__headers)]: the attribute
    is looked up before [u] is evaluated. *)
Definition session_get (u : LadokSession -> result string) : M response :=
  o <- get_self ;;
  if session o
  then url <- lift (u o) ;; http (MkRequest GET url (headers o) NoData)
  else raise AttributeError.

(** [self.__session.put(url = u, json = j, headers = h)] and [post]. *)
Definition session_send (m : method) (u : string) (j : json)
    (h : list (string * string)) : M response :=
  o <- get_self ;;
  if session o
  then http (MkRequest m u h (Json j))
  else raise AttributeError.

(** [if not self.signed_in: raise Exception('Not signed in.')] *)
Definition require_signed_in : M unit :=
  o <- get_self ;;
  if signed_in o then ret tt else raise (Exception "Not signed in.").

(** *** Private methods *)

Definition __get_xsrf_token : M string :=
  fun w =>
    if session (self w)
    then (match lookup "XSRF-TOKEN" (cookies w) with
          | Some v => Ok v
          | None => Raise StopIteration
          end, w)
    else (Raise AttributeError, w).

Definition __get_grade_scale_by_id (o : LadokSession) (grade_scale_id : json)
  : result GradeScale :=
  next (fun grade_scale => py_eq (JNum (scale_id grade_scale)) grade_scale_id)
       (grade_scales o).

Definition __get_grade_scale_by_code (o : LadokSession)
    (grade_scale_code : string) : result GradeScale :=
  next (fun grade_scale => py_eq (scale_code grade_scale)
                                 (JStr grade_scale_code))
       (grade_scales o).

Definition __get_grade_by_id (o : LadokSession) (id : json)
  : option Grade :=
  find (fun grade => py_eq (JNum (grade_id grade)) id)
       (flat_map scale_grades (grade_scales o)).

Definition read_student (r : json) : result Student :=
  uid <-- subscript r "Uid" ;;
  fornamn <-- subscript r "Fornamn" ;;
  efternamn <-- subscript r "Efternamn" ;;
  personnummer <-- subscript r "Personnummer" ;;
  avliden <-- subscript r "Avliden" ;;
  Ok (MkStudent uid fornamn efternamn personnummer (negb (truthy avliden))).

(** Returns None unless the service knows exactly one such student. *)
Definition __get_student_data (person_nr : string) : M (option Student) :=
  r <- session_get (fun o => Ok (base_gui_proxy_url o
         ++ "/studentinformation/student/filtrera?limit=2&orderby=EFTERNAMN_ASC&orderby=FORNAMN_ASC&orderby=PERSONNUMMER_ASC&page=1&personnummer="
         ++ person_nr ++ "&skipCount=false&sprakkod=sv")) ;;
  lift (j <-- resp_json r ;;
        r <-- subscript j "Resultat" ;;
        n <-- py_len r ;;
        if negb (n =? 1)%nat then Ok None
        else r <-- subscript0 r ;;
             student <-- read_student r ;;
             Ok (Some student)).

Definition read_course (course : json) : result Course :=
  uid <-- subscript course "Uid" ;;
  round <-- (i <-- subscript course "Utbildningsinformation" ;;
             subscript i "UtbildningstillfalleUID") ;;
  education <-- (i <-- subscript course "Utbildningsinformation" ;;
                 subscript i "UtbildningUID") ;;
  instance <-- (i <-- subscript course "Utbildningsinformation" ;;
                subscript i "UtbildningsinstansUID") ;;
  code <-- (i <-- subscript course "Utbildningsinformation" ;;
            subscript i "Utbildningskod") ;;
  name <-- (i <-- subscript course "Utbildningsinformation" ;;
            b <-- subscript i "Benamning" ;;
            subscript b "sv") ;;
  Ok (MkCourse uid round education instance code name).

(** [not course['Nuvarande'] or 'Utbildningskod' not in
    course['Utbildningsinformation']] *)
Definition skip_course (course : json) : result bool :=
  nuvarande <-- subscript course "Nuvarande" ;;
  if negb (truthy nuvarande) then Ok true
  else i <-- subscript course "Utbildningsinformation" ;;
       c <-- contains "Utbildningskod" i ;;
       Ok (negb c).

(** The loop of [__get_student_courses]. *)
Fixpoint student_courses (items : list json) : result (list Course) :=
  match items with
  | [] => Ok []
  | course :: rest =>
      skip <-- skip_course course ;;
      if skip then student_courses rest
      else c <-- read_course course ;;
           cs <-- student_courses rest ;;
           Ok (c :: cs)
  end.

Definition __get_student_courses (student_id : json) : M (list Course) :=
  r <- session_get (fun o =>
         s <-- as_str student_id ;;
         Ok (base_gui_proxy_url o
               ++ "/studiedeltagande/tillfallesdeltagande/kurstillfallesdeltagande/student/"
               ++ s)) ;;
  lift (j <-- resp_json r ;;
        l <-- subscript j "Tillfallesdeltaganden" ;;
        items <-- iterate l ;;
        student_courses items).

Definition read_moment (moment : json) : result Moment :=
  instance <-- subscript moment "UtbildningsinstansUID" ;;
  code <-- subscript moment "Utbildningskod" ;;
  education <-- subscript moment "UtbildningUID" ;;
  name <-- (b <-- subscript moment "Benamning" ;; subscript b "sv") ;;
  Ok (MkMoment instance code education name).

Definition __get_student_course_moments (course_round_id student_id : json)
  : M (list Moment) :=
  r <- session_get (fun o =>
         Ok (base_gui_proxy_url o ++ "/resultat/kurstillfalle/"
               ++ py_str (repr E) course_round_id ++ "/student/"
               ++ py_str (repr E) student_id ++ "/moment")) ;;
  lift (j <-- resp_json r ;;
        l <-- subscript j "IngaendeMoment" ;;
        items <-- iterate l ;;
        mapR read_moment items).

Definition read_pending (o : LadokSession) (a : json) : result Pending :=
  uid <-- subscript a "Uid" ;;
  instance <-- subscript a "UtbildningsinstansUID" ;;
  grade <-- subscript a "Betygsgrad" ;;
  date <-- subscript a "Examinationsdatum" ;;
  scale <-- (i <-- subscript a "BetygsskalaID" ;;
             __get_grade_scale_by_id o i) ;;
  modified <-- subscript a "SenasteResultatandring" ;;
  Ok (MkPending uid instance (__get_grade_by_id o grade) date scale modified).

Definition read_attested (o : LadokSession) (a : json) : result Attested :=
  uid <-- subscript a "Uid" ;;
  instance <-- subscript a "UtbildningsinstansUID" ;;
  grade <-- subscript a "Betygsgrad" ;;
  date <-- subscript a "Examinationsdatum" ;;
  scale <-- (i <-- subscript a "BetygsskalaID" ;;
             __get_grade_scale_by_id o i) ;;
  Ok (MkAttested uid instance (__get_grade_by_id o grade) date scale).

(** [read a if key in res else None], with [a = res[key]]. *)
Definition if_present {A : Type} (key : string) (read : json -> result A)
    (res : json) : result (option A) :=
  c <-- contains key res ;;
  if c then a <-- subscript res key ;; x <-- read a ;; Ok (Some x)
  else Ok None.

Definition read_course_result (o : LadokSession) (res : json)
  : result CourseResult :=
  education <-- subscript res "UtbildningUID" ;;
  p <-- if_present "Arbetsunderlag" (read_pending o) res ;;
  a <-- if_present "SenastAttesteradeResultat" (read_attested o) res ;;
  Ok (MkCourseResult education p a).

Definition __get_student_course_results (course_round_id student_id : json)
  : M CourseResults :=
  r <- session_get (fun o =>
         s <-- as_str student_id ;;
         c <-- as_str course_round_id ;;
         Ok (base_gui_proxy_url o ++ "/resultat/studieresultat/student/"
               ++ s ++ "/utbildningstillfalle/" ++ c)) ;;
  o <- get_self ;;
  lift (j <-- resp_json r ;;
        uid <-- subscript j "Uid" ;;
        l <-- subscript j "ResultatPaUtbildningar" ;;
        items <-- iterate l ;;
        rs <-- mapR (read_course_result o) items ;;
        Ok (MkCourseResults uid rs)).

(** [student_data['id']] where [student_data] may be None. *)
Definition student_data_id (student_data : option Student) : result json :=
  match student_data with
  | Some s => Ok (student_id s)
  | None => Raise TypeError
  end.

(** *** [__init__]: the handshake *)

Definition new_session (base : string) : LadokSession :=
  MkLadokSession base (base ++ "/gui") ((base ++ "/gui") ++ "/proxy")
    false false [("Accept", accept)] [] [].

(** Lines 39 to 56: the attributes, and a fresh [requests] session. *)
Definition init_attributes (testenvironment_flag : bool) : M unit :=
  let base :=
    if testenvironment_flag then "https://www.test.ladok.se"
    else "https://www.start.ladok.se" in
  (if testenvironment_flag
   then print ("Using test environment: " ++ base)
   else ret tt) ;;;
  (fun w => (Ok tt, MkWorld (new_session base) [] (trace w) (stdout w))).

(** Lines 58 to 92: up to the reply to the credentials. *)
Definition init_login (username password : string) : M response :=
  o <- get_self ;;
  _ <- http (MkRequest GET (base_gui_url o ++ "/loggain") [] NoData) ;;
  r <- http (MkRequest GET (base_gui_url o ++ "/shiblogin") [] NoData) ;;
  url <- lift (shibstate <-- group1 (re_search return_re (url r)) ;;
               Ok (unquote E shibstate)) ;;
  _ <- http (MkRequest GET
               (url ++ "&entityID=https://saml.sys.kth.se/idp/shibboleth")
               [] NoData) ;;
  r <- http (MkRequest POST
               "https://saml-5.sys.kth.se/idp/profile/SAML2/Redirect/SSO?execution=e1s1"
               []
               (Form [("shib_idp_ls_exception.shib_idp_session_ss", EmptyString);
                      ("shib_idp_ls_success.shib_idp_session_ss", "true");
                      ("shib_idp_ls_value.shib_idp_session_ss", EmptyString);
                      ("shib_idp_ls_exception.shib_idp_persistent_ss", EmptyString);
                      ("shib_idp_ls_success.shib_idp_persistent_ss", "true");
                      ("shib_idp_ls_value.shib_idp_persistent_ss", EmptyString);
                      ("shib_idp_ls_supported", "true");
                      ("_eventId_proceed", EmptyString)])) ;;
  action <- lift (group1 (re_search fm1_re (text r))) ;;
  lt <- lift (group1 (re_search (hidden_re "lt") (text r))) ;;
  execution <- lift (group1 (re_search (hidden_re "execution") (text r))) ;;
  http (MkRequest POST ("https://login.kth.se" ++ action) []
          (Form [("username", username);
                 ("password", password);
                 ("lt", lt);
                 ("execution", execution);
                 ("_eventId", "submit");
                 ("subimt", "Logga in")])).

(** Lines 94 to 109: the assertion found in the reply is posted back. *)
Definition init_assertion (r : response) : M response :=
  match re_search action_re (text r) with
  | None => raise (Exception "Invalid username or password.")
  | Some action =>
      relay_state <- lift (g <-- group1 (re_search relay_state_re (text r)) ;;
                           Ok (html_unescape E g)) ;;
      saml_response <- lift (g <-- group1 (re_search saml_response_re
                                                     (text r)) ;;
                             Ok (html_unescape E g)) ;;
      http (MkRequest POST (html_unescape E (group_str action 1)) []
              (Form [("RelayState", relay_state);
                     ("SAMLResponse", saml_response)]))
  end.

Definition read_grade (grade : json) : result Grade :=
  id <-- (i <-- subscript grade "ID" ;; py_int_of (int_of_str E) i) ;;
  code <-- subscript grade "Kod" ;;
  accepted <-- subscript grade "GiltigSomSlutbetyg" ;;
  Ok (MkGrade id code accepted).

Definition read_grade_scale (grade_scale : json) : result GradeScale :=
  id <-- (i <-- subscript grade_scale "ID" ;; py_int_of (int_of_str E) i) ;;
  code <-- subscript grade_scale "Kod" ;;
  name <-- (b <-- subscript grade_scale "Benamning" ;; subscript b "sv") ;;
  grades <-- (l <-- subscript grade_scale "Betygsgrad" ;;
              items <-- iterate l ;;
              mapR read_grade items) ;;
  Ok (MkGradeScale id code name grades).

(** The loop of lines 115 to 125: one [append] for each scale. *)
Fixpoint append_grade_scales (items : list json) : M unit :=
  match items with
  | [] => ret tt
  | grade_scale :: rest =>
      scale <- lift (read_grade_scale grade_scale) ;;
      modify_self (fun o =>
        set_grade_scales (grade_scales o ++ [scale])%list o) ;;;
      append_grade_scales rest
  end.

(** The loops of lines 127 to 132. *)
Definition index_grades (scales : list GradeScale)
    (d : list (Z * (GradeScale * Grade))) : list (Z * (GradeScale * Grade)) :=
  fold_left (fun d grade_scale =>
               fold_left (fun d grade =>
                            zdict_set (grade_id grade) (grade_scale, grade) d)
                         (scale_grades grade_scale) d)
            scales d.

(** Lines 113 to 132: the table of grade scales. *)
Definition init_grade_scales : M unit :=
  o <- get_self ;;
  r <- http (MkRequest GET
               (base_gui_proxy_url o ++ "/resultat/grunddata/betygsskala")
               (headers o) NoData) ;;
  items <- lift (j <-- resp_json r ;;
                 l <-- subscript j "Betygsskala" ;;
                 iterate l) ;;
  append_grade_scales items ;;;
  modify_self (fun o =>
    set_grade_by_id (index_grades (grade_scales o) (grade_by_id o)) o).

Definition __init__ (username password : string)
    (testenvironment_flag : bool) : M unit :=
  init_attributes testenvironment_flag ;;;
  r <- init_login username password ;;
  r <- init_assertion r ;;
  (if str_in not_a_teacher_marker (text r)
   then raise (Exception "Signed in successfully, but not as a teacher.")
   else ret tt) ;;;
  init_grade_scales ;;;
  modify_self (fun o => set_session true (set_signed_in true o)).

(** *** [get_results] *)

(** Lines 174 to 177: the results of the course, or None. *)
Fixpoint attested_of_course (items : list json) (education : json)
  : result (option json) :=
  match items with
  | [] => Ok None
  | course :: rest =>
      k <-- subscript course "KursUID" ;;
      if py_eq k education
      then r <-- subscript course "Studentresultat" ;; Ok (Some r)
      else attested_of_course rest education
  end.

(** The body of the [try] of lines 183 to 186: None when it raised. *)
Definition attested_entry (res : json) : option (json * ResultEntry) :=
  match subscript res "Betygsgradskod", subscript res "Examinationsdatum",
        subscript res "Utbildningskod" with
  | Ok g, Ok d, Ok k =>
      if hashable k then Some (k, MkEntry g "attested" d) else None
  | _, _, _ => None
  end.

Definition attested_loop (items : list json)
    (results : list (json * ResultEntry)) : list (json * ResultEntry) :=
  fold_left (fun results res =>
               match attested_entry res with
               | Some (k, d) => jdict_set k d results
               | None => results
               end)
            items results.


(** Lines 194 to 201 and the key of line 202. *)
Definition pending_entry (res : json) : M (json * ResultEntry) :=
  r <- session_get (fun o =>
         i <-- subscript res "UtbildningsinstansUID" ;;
         s <-- as_str i ;;
         Ok (base_gui_proxy_url o ++ "/resultat/utbildningsinstans/" ++ s)) ;;
  lift (r <-- resp_json r ;;
        d_grade <-- (b <-- subscript res "Betygsgradsobjekt" ;;
                     subscript b "Kod") ;;
        p <-- subscript res "ProcessStatus" ;;
        c <-- contains "Examinationsdatum" res ;;
        d_date <-- (if negb c then Ok (JStr "0")
                    else subscript res "Examinationsdatum") ;;
        k <-- subscript r "Utbildningskod" ;;
        if hashable k
        then Ok (k, MkEntry d_grade
                      ("pending(" ++ py_str (repr E) p ++ ")") d_date)
        else Raise TypeError).

Fixpoint pending_loop (items : list json)
    (results : list (json * ResultEntry)) : M (list (json * ResultEntry)) :=
  match items with
  | [] => ret results
  | res :: rest =>
      kd <- pending_entry res ;;
      pending_loop rest (jdict_set (fst kd) (snd kd) results)
  end.

Definition get_results (person_nr_raw course_code : string)
  : M (list (json * ResultEntry)) :=
  require_signed_in ;;;
  match nonempty (__validate_person_nr (now_year E) person_nr_raw) with
  | None => raise (Exception ("Invalid person nr " ++ person_nr_raw))
  | Some person_nr =>
      student_data <- __get_student_data person_nr ;;
      id <- lift (student_data_id student_data) ;;
      courses <- __get_student_courses id ;;
      student_course <- lift (next (fun x => py_eq (Session.course_code x)
                                                   (JStr course_code))
                                   courses) ;;
      r <- session_get (fun o =>
             s <-- as_str id ;;
             Ok (base_gui_proxy_url o
                   ++ "/resultat/studentresultat/attesterade/student/"
                   ++ s)) ;;
      attested <- lift (j <-- resp_json r ;;
                        l <-- subscript j "StudentresultatPerKurs" ;;
                        items <-- iterate l ;;
                        attested_of_course items
                          (education_id student_course)) ;;
      results <- lift (match attested with
                       | Some l =>
                           if truthy l
                           then items <-- iterate l ;;
                                Ok (attested_loop items [])
                           else Ok []
                       | None => Ok []
                       end) ;;
      r <- session_get (fun o =>
             s <-- as_str id ;;
             e <-- as_str (education_id student_course) ;;
             Ok (base_gui_proxy_url o
                   ++ "/resultat/resultat/resultat/student/" ++ s
                   ++ "/kurs/" ++ e
                   ++ "?resultatstatus=UTKAST&resultatstatus=KLARMARKERAT")) ;;
      items <- lift (j <-- resp_json r ;;
                     l <-- subscript j "Resultat" ;;
                     iterate l) ;;
      pending_loop items results
  end.

(** *** [save_result] *)

(** What lines 232 to 258 of [save_result] work out. *)
Record Resolved : Type := MkResolved {
  result_date : string;
  target_moment_id : option json;   (* course_moment_id, None if unbound *)
  student_course_results : CourseResults;
  resolved_grade_scale : GradeScale;
  resolved_grade : Grade;
  write_headers : list (string * string)
}.

(** Lines 246 to 248: the last moment with the code; unbound if none. *)
Definition moment_id_of (course_moment : string) (moments : list Moment)
  : option json :=
  fold_left (fun id x =>
               if py_eq (moment_code x) (JStr course_moment)
               then Some (course_moment_id x) else id)
            moments None.

(** Lines 224 to 258. *)
Definition save_result_resolve
    (person_nr_raw course_code course_moment result_date_raw grade_raw
     grade_scale : string) : M Resolved :=
  require_signed_in ;;;
  if list_in grade_raw ["AF"; "PF"]
  then raise (Exception ("Invalid grade: " ++ grade_raw
                           ++ " looks like a grade_scale"))
  else
  if (String.eqb grade_raw "P" && String.eqb grade_scale "AF")
     || (str_in grade_raw "ABCDE" && String.eqb grade_scale "PF")
  then raise (Exception ("Invalid grade: " ++ grade_raw
                           ++ " does not match grade_scale " ++ grade_scale))
  else
  match nonempty (__validate_person_nr (now_year E) person_nr_raw) with
  | None => raise (Exception ("Invalid person nr " ++ person_nr_raw))
  | Some person_nr =>
  match nonempty (__validate_date result_date_raw) with
  | None => raise (Exception ("Invalid grade date: " ++ result_date_raw
                                ++ " pnr: " ++ person_nr_raw
                                ++ " moment: " ++ course_moment))
  | Some result_date =>
      student_data <- __get_student_data person_nr ;;
      id <- lift (student_data_id student_data) ;;
      courses <- __get_student_courses id ;;
      student_course <- lift (next (fun x => py_eq (Session.course_code x)
                                                   (JStr course_code))
                                   courses) ;;
      course_moment_id <-
        (if py_eq (JStr course_moment) (Session.course_code student_course)
         then ret (Some (instance_id student_course))
         else moments <- __get_student_course_moments
                           (round_id student_course) id ;;
              ret (moment_id_of course_moment moments)) ;;
      student_course_results <-
        __get_student_course_results (round_id student_course) id ;;
      o <- get_self ;;
      grade_scale <- lift (__get_grade_scale_by_code o grade_scale) ;;
      grade <- lift (next (fun grade => py_eq (grade_code grade)
                                              (JStr grade_raw))
                          (scale_grades grade_scale)) ;;
      token <- __get_xsrf_token ;;
      ret (MkResolved result_date course_moment_id student_course_results
             grade_scale grade
             (dict_set "Referer" (base_gui_url o)
                (dict_set "X-XSRF-TOKEN" token
                   (dict_set "Content-Type"
                      "application/vnd.ladok-resultat+json" (headers o)))))
  end
  end.

(** Lines 262 to 266: the first pending result of the moment. *)
Fixpoint previous_result (results : list CourseResult)
    (course_moment_id : option json) : result (option Pending) :=
  match results with
  | [] => Ok None
  | res :: rest =>
      match pending res with
      | Some p =>
          match course_moment_id with
          | None => Raise UnboundLocalError
          | Some id =>
              if py_eq (moment_id p) id then Ok (Some p)
              else previous_result rest course_moment_id
          end
      | None => previous_result rest course_moment_id
      end
  end.

Definition put_data (previous : Pending) (p : Resolved) : json :=
  JObj [("Resultat",
         JArr [JObj [("ResultatUID", pending_id previous);
                     ("Betygsgrad", JNum (grade_id (resolved_grade p)));
                     ("Noteringar", JArr []);
                     ("BetygsskalaID",
                      JNum (scale_id (resolved_grade_scale p)));
                     ("Examinationsdatum", JStr (result_date p));
                     ("SenasteResultatandring", last_modified previous)]])].

Definition post_data (course_moment_id : json) (p : Resolved) : json :=
  JObj [("Resultat",
         JArr [JObj [("StudieresultatUID",
                      results_id (student_course_results p));
                     ("UtbildningsinstansUID", course_moment_id);
                     ("Betygsgrad", JNum (grade_id (resolved_grade p)));
                     ("Noteringar", JArr []);
                     ("BetygsskalaID",
                      JNum (scale_id (resolved_grade_scale p)));
                     ("Examinationsdatum", JStr (result_date p))]])].

(** Lines 260 to 299. *)
Definition save_result_write
    (person_nr_raw course_moment result_date_raw grade_raw : string)
    (p : Resolved) : M bool :=
  previous <- lift (previous_result (results (student_course_results p))
                                    (target_moment_id p)) ;;
  o <- get_self ;;
  r <- match previous with
       | Some previous =>
           session_send PUT
             (base_gui_proxy_url o ++ "/resultat/studieresultat/uppdatera")
             (put_data previous p) (write_headers p)
       | None =>
           match target_moment_id p with
           | None => raise UnboundLocalError
           | Some course_moment_id =>
               session_send POST
                 (base_gui_proxy_url o ++ "/resultat/studieresultat/skapa")
                 (post_data course_moment_id p) (write_headers p)
           end
       end ;;
  accepted <- lift (j <-- resp_json r ;; contains "Resultat" j) ;;
  if negb accepted
  then raise (Exception ("Kunde inte mata in " ++ person_nr_raw ++ " "
                           ++ course_moment ++ " : " ++ grade_raw ++ " "
                           ++ result_date_raw ++ String newline (text r)))
  else ret true.

Definition save_result
    (person_nr_raw course_code course_moment result_date_raw grade_raw
     grade_scale : string) : M bool :=
  p <- save_result_resolve person_nr_raw course_code course_moment
         result_date_raw grade_raw grade_scale ;;
  save_result_write person_nr_raw course_moment result_date_raw grade_raw p.

(** *** The other public methods *)

Definition get_student_data (person_nr_raw : string) : M (option Student) :=
  require_signed_in ;;;
  match nonempty (__validate_person_nr (now_year E) person_nr_raw) with
  | None => raise (Exception ("Invalid person nr " ++ person_nr_raw))
  | Some person_nr => __get_student_data person_nr
  end.

(** Returns the first and the last name. *)
Definition get_student_name (person_nr_raw : string) : M (json * json) :=
  require_signed_in ;;;
  match nonempty (__validate_person_nr (now_year E) person_nr_raw) with
  | None => raise (Exception ("Invalid person nr " ++ person_nr_raw))
  | Some person_nr =>
      student_data <- __get_student_data person_nr ;;
      match student_data with
      | Some s => ret (first_name s, last_name s)
      | None => raise TypeError
      end
  end.

Definition get_student_data_JSON (person_nr_raw lang : string) : M json :=
  require_signed_in ;;;
  match nonempty (__validate_person_nr (now_year E) person_nr_raw) with
  | None => raise (Exception ("Invalid person nr " ++ person_nr_raw))
  | Some person_nr =>
      r <- session_get (fun o => Ok (base_gui_proxy_url o
             ++ "/studentinformation/student/filtrera?limit=2&orderby=EFTERNAMN_ASC&orderby=FORNAMN_ASC&orderby=PERSONNUMMER_ASC&page=1&personnummer="
             ++ person_nr ++ "&skipCount=false&sprakkod=" ++ lang)) ;;
      lift (resp_json r)
  end.

Definition get_student_data_by_uid_JSON (uid : string) : M json :=
  require_signed_in ;;;
  r <- session_get (fun o => Ok (base_gui_proxy_url o
         ++ "/studentinformation/student/" ++ uid)) ;;
  lift (resp_json r).

Definition logout : M response :=
  require_signed_in ;;;
  r <- session_get (fun o => Ok (base_gui_proxy_url o ++ "/logout")) ;;
  (if (status_code r =? 200)%Z
   then modify_self (fun o => set_session false (set_signed_in false o))
   else ret tt) ;;;
  ret r.

Definition all_grading_scale : M (list GradeScale) :=
  o <- get_self ;;
  ret (grade_scales o).

Definition grading_rights : M json :=
  require_signed_in ;;;
  r <- session_get (fun o => Ok (base_gui_proxy_url o
         ++ "/resultat/resultatrattighet/listaforinloggadanvandare")) ;;
  lift (j <-- resp_json r ;; subscript j "Resultatrattighet").

Definition change_locale (lang : string) : M json :=
  require_signed_in ;;;
  r <- session_get (fun o => Ok (base_gui_url o
         ++ "/services/i18n/changeLocale?lang=" ++ lang)) ;;
  lift (resp_json r).

Definition course_instances_JSON (course_code lang : string) : M json :=
  require_signed_in ;;;
  r <- session_get (fun o => Ok (base_gui_proxy_url o
         ++ "/resultat/kurstillfalle/filtrera?kurskod=" ++ course_code
         ++ "&page=1&limit=100&skipCount=false&sprakkod=" ++ lang)) ;;
  lift (resp_json r).

Definition organization_info_JSON : M json :=
  require_signed_in ;;;
  r <- session_get (fun o => Ok (base_gui_proxy_url o
         ++ "/resultat/organisation/utanlankar")) ;;
  lift (resp_json r).

(** Line 3483: the address is the proxy address followed, without a
    slash, by this text. *)
Definition examen_student_uid_JSON : M json :=
  require_signed_in ;;;
  r <- session_get (fun o => Ok (base_gui_proxy_url o
         ++ "examen/student/+studentUID")) ;;
  lift (resp_json r).

End Methods.

(** *** What a statement leaves alone *)

(** From [w], [m] makes one request, a GET of [url] with the headers of the
    session, and does not touch the object. *)
Definition one_get {A : Type} (m : M A) (w : world) (url : string) : Prop :=
  trace (snd (m w))
  = (trace w ++ [MkRequest GET url (headers (self w)) NoData])%list
  /\ self (snd (m w)) = self w.

(** [m] does not touch the object. *)
Definition keeps_self {A : Type} (m : M A) : Prop :=
  forall w, self (snd (m w)) = self w.

(** [m] makes no request, sets no cookie and prints nothing. *)
Definition keeps_outside {A : Type} (m : M A) : Prop :=
  forall w, cookies (snd (m w)) = cookies w
            /\ trace (snd (m w)) = trace w /\ stdout (snd (m w)) = stdout w.

(** The object is not signed in and holds no [requests] session. *)
Definition inactive (w : world) : Prop :=
  signed_in (self w) = false /\ session (self w) = false.

(** [m] only adds to the requests made. *)
Definition extends_trace {A : Type} (m : M A) : Prop :=
  forall w, exists l, trace (snd (m w)) = (trace w ++ l)%list.


End Session.

(** ** ladok3_course_instance_to_spreadsheet.py: the names of a list *)

Module Spreadsheet.
Import PyStr Py Session.
Local Open Scope py_scope.

(** The loop of [english_name] and [swedish_name]: the text of the first
    name in the language; None, here [JNull], when the loop ends. *)
Fixpoint name_in (lang : string) (items : list json) : result json :=
  match items with
  | [] => Ok JNull
  | i :: rest =>
      k <-- subscript i "Sprakkod" ;;
      if py_eq k (JStr lang) then subscript i "Text" else name_in lang rest
  end.

Definition english_name (names : json) : result json :=
  items <-- iterate names ;; name_in "en" items.

Definition swedish_name (names : json) : result json :=
  items <-- iterate names ;; name_in "sv" items.

End Spreadsheet.

(** ** A sample service

    A small stand-in for the login pages and for Ladok, with one teacher,
    one student and one course, on which the methods can be run. *)

Module Scenario.
Import PyStr Re Py Session.

Definition attr (name value : string) : string :=
  name ++ "=" ++ q ++ value ++ q.

Definition hidden (name value : string) (close : string) : string :=
  "<input " ++ attr "type" "hidden" ++ " " ++ attr "name" name ++ " "
    ++ attr "value" value ++ close.

Definition ladok : string := "https://www.start.ladok.se".
Definition proxy : string := ladok ++ "/gui/proxy".

Definition page (u text : string) : response := MkResponse 200 u text None [].

Definition document (u : string) (j : json) : response :=
  MkResponse 200 u "(json)" (Some j) [].

Definition not_found (u : string) : response :=
  MkResponse 404 u "Not found" None [].

Definition login_form : string :=
  "<html><form " ++ attr "id" "fm1" ++ " " ++ attr "action" "/login?service=ladok"
    ++ " " ++ attr "method" "post" ++ ">"
    ++ hidden "lt" "LT-17" " />" ++ hidden "execution" "e1s1" " />"
    ++ "</form></html>".

Definition assertion_form : string :=
  "<html><form " ++ attr "action" (ladok ++ "/Shibboleth.sso/SAML2/POST")
    ++ " " ++ attr "method" "post" ++ ">"
    ++ hidden "RelayState" "ss:mem:1" "/>" ++ hidden "SAMLResponse" "PHNhbWw+" "/>"
    ++ "</form></html>".

(** The user name of the latest form in the requests made. *)
Definition last_username (h : list request) : option string :=
  fold_left (fun acc rq =>
               match req_data rq with
               | Form d =>
                   match lookup "username" d with
                   | Some u => Some u
                   | None => acc
                   end
               | _ => acc
               end)
            h None.

Definition scale (id code : string) (grades : list (string * string)) : json :=
  JObj [("ID", JStr id); ("Kod", JStr code);
        ("Benamning", JObj [("sv", JStr code); ("en", JStr code)]);
        ("Betygsgrad",
         JArr (map (fun g => JObj [("ID", JStr (fst g)); ("Kod", JStr (snd g));
                                   ("GiltigSomSlutbetyg", JBool true)])
                   grades))].

Definition betygsskala : json :=
  JObj [("Betygsskala",
         JArr [scale "1" "AF" [("101", "A"); ("102", "B"); ("103", "C");
                               ("104", "D"); ("105", "E"); ("106", "F")];
               scale "2" "PF" [("201", "P"); ("202", "F")]])].

Definition student : json :=
  JObj [("Resultat",
         JArr [JObj [("Uid", JStr "stu1"); ("Fornamn", JStr "Anna");
                     ("Efternamn", JStr "Andersson");
                     ("Personnummer", JStr "194612121212");
                     ("Avliden", JBool false)]])].

Definition courses : json :=
  JObj [("Tillfallesdeltaganden",
         JArr [JObj [("Uid", JStr "par0"); ("Nuvarande", JBool false);
                     ("Utbildningsinformation", JObj [])];
               JObj [("Uid", JStr "par1"); ("Nuvarande", JBool true);
                     ("Utbildningsinformation",
                      JObj [("UtbildningstillfalleUID", JStr "rnd1");
                            ("UtbildningUID", JStr "edu1");
                            ("UtbildningsinstansUID", JStr "ins0");
                            ("Utbildningskod", JStr "DD1321");
                            ("Benamning", JObj [("sv", JStr "Tilda")])])]])].

Definition moment (instance code : string) : json :=
  JObj [("UtbildningsinstansUID", JStr instance); ("Utbildningskod", JStr code);
        ("UtbildningUID", JStr "edu1");
        ("Benamning", JObj [("sv", JStr code)])].

Definition moments : json :=
  JObj [("IngaendeMoment", JArr [moment "ins1" "TEN1"; moment "ins2" "LAB1"])].

Definition studieresultat : json :=
  JObj [("Uid", JStr "sr1");
        ("ResultatPaUtbildningar",
         JArr [JObj [("UtbildningUID", JStr "edu1");
                     ("SenastAttesteradeResultat",
                      JObj [("Uid", JStr "res0");
                            ("UtbildningsinstansUID", JStr "ins2");
                            ("Betygsgrad", JNum 201);
                            ("Examinationsdatum", JStr "2019-01-14");
                            ("BetygsskalaID", JNum 2)])];
               JObj [("UtbildningUID", JStr "edu1");
                     ("Arbetsunderlag",
                      JObj [("Uid", JStr "res1");
                            ("UtbildningsinstansUID", JStr "ins1");
                            ("Betygsgrad", JNum 106);
                            ("Examinationsdatum", JStr "2019-03-13");
                            ("BetygsskalaID", JNum 1);
                            ("SenasteResultatandring",
                             JStr "2019-03-14T08:00:00")])]])].

Definition attesterade : json :=
  JObj [("StudentresultatPerKurs",
         JArr [JObj [("KursUID", JStr "edu0"); ("Studentresultat", JArr [])];
               JObj [("KursUID", JStr "edu1");
                     ("Studentresultat",
                      JArr [JObj [("Betygsgradskod", JStr "P");
                                  ("Examinationsdatum", JStr "2019-01-14");
                                  ("Utbildningskod", JStr "LAB1")];
                            JObj [("Betygsgradskod", JStr "F");
                                  ("Examinationsdatum", JStr "2019-03-13");
                                  ("Utbildningskod", JStr "TEN1")];
                            JObj [("Examinationsdatum", JStr "2018-06-01");
                                  ("Utbildningskod", JNull)]])]])].

Definition utkast : json :=
  JObj [("Resultat",
         JArr [JObj [("UtbildningsinstansUID", JStr "ins1");
                     ("Betygsgradsobjekt", JObj [("Kod", JStr "E")]);
                     ("ProcessStatus", JNum 1);
                     ("Examinationsdatum", JStr "2019-03-23")];
               JObj [("UtbildningsinstansUID", JStr "ins0");
                     ("Betygsgradsobjekt", JObj [("Kod", JStr "D")]);
                     ("ProcessStatus", JNum 2)]])].

(** The answers.  Writes are taken when [accept_writes]; the sign-out is
    answered with [logout_status]. *)
Definition answer (accept_writes : bool) (logout_status : Z)
    (h : list request) (rq : request) : result response :=
  let u := req_url rq in
  match req_method rq with
  | GET =>
      if u =? ladok ++ "/gui/loggain" then Ok (page u "<html></html>")
      else if u =? ladok ++ "/gui/shiblogin" then
        Ok (page ("https://login.example/ds?return=" ++ ladok
                    ++ "/Shibboleth.sso/Login?target=ss&policy=x")
                 "<html></html>")
      else if u =? ladok ++ "/Shibboleth.sso/Login?target=ss"
                     ++ "&entityID=https://saml.sys.kth.se/idp/shibboleth"
      then Ok (page u "<html></html>")
      else if u =? proxy ++ "/resultat/grunddata/betygsskala" then
        Ok (MkResponse 200 u "(json)" (Some betygsskala)
              [("XSRF-TOKEN", "token-1")])
      else if u =? proxy ++ "/studentinformation/student/filtrera?limit=2&orderby=EFTERNAMN_ASC&orderby=FORNAMN_ASC&orderby=PERSONNUMMER_ASC&page=1&personnummer=194612121212&skipCount=false&sprakkod=sv"
      then Ok (document u student)
      else if u =? proxy ++ "/studentinformation/student/filtrera?limit=2&orderby=EFTERNAMN_ASC&orderby=FORNAMN_ASC&orderby=PERSONNUMMER_ASC&page=1&personnummer=194712121212&skipCount=false&sprakkod=sv"
      then Ok (document u (JObj [("Resultat", JArr [])]))
      else if u =? proxy ++ "/studiedeltagande/tillfallesdeltagande/kurstillfallesdeltagande/student/stu1"
      then Ok (document u courses)
      else if u =? proxy ++ "/resultat/kurstillfalle/rnd1/student/stu1/moment"
      then Ok (document u moments)
      else if u =? proxy ++ "/resultat/studieresultat/student/stu1/utbildningstillfalle/rnd1"
      then Ok (document u studieresultat)
      else if u =? proxy ++ "/resultat/studentresultat/attesterade/student/stu1"
      then Ok (document u attesterade)
      else if u =? proxy ++ "/resultat/resultat/resultat/student/stu1/kurs/edu1?resultatstatus=UTKAST&resultatstatus=KLARMARKERAT"
      then Ok (document u utkast)
      else if u =? proxy ++ "/resultat/utbildningsinstans/ins1"
      then Ok (document u (JObj [("Utbildningskod", JStr "TEN1")]))
      else if u =? proxy ++ "/resultat/utbildningsinstans/ins0"
      then Ok (document u (JObj [("Utbildningskod", JStr "DD1321")]))
      else if u =? proxy ++ "/logout"
      then Ok (MkResponse logout_status u "<html></html>" None [])
      else Ok (not_found u)
  | POST =>
      if u =? "https://saml-5.sys.kth.se/idp/profile/SAML2/Redirect/SSO?execution=e1s1"
      then Ok (page u login_form)
      else if u =? "https://login.kth.se/login?service=ladok" then
        match req_data rq with
        | Form d =>
            match lookup "password" d with
            | Some "secret" => Ok (page u assertion_form)
            | _ => Ok (page u "<html><p>Try again.</p></html>")
            end
        | _ => Ok (not_found u)
        end
      else if u =? ladok ++ "/Shibboleth.sso/SAML2/POST" then
        match last_username h with
        | Some "teacher" => Ok (page u "<html>Ladok</html>")
        | _ => Ok (page u ("<html>" ++ not_a_teacher_marker ++ "</html>"))
        end
      else if u =? proxy ++ "/resultat/studieresultat/skapa" then
        if accept_writes
        then Ok (document u (JObj [("Resultat", JArr [])]))
        else Ok (MkResponse 400 u "Rejected"
                   (Some (JObj [("Meddelande", JStr "Rejected")])) [])
      else Ok (not_found u)
  | PUT =>
      if u =? proxy ++ "/resultat/studieresultat/uppdatera" then
        if accept_writes
        then Ok (document u (JObj [("Resultat", JArr [])]))
        else Ok (MkResponse 409 u "Stale"
                   (Some (JObj [("Meddelande", JStr "Stale")])) [])
      else Ok (not_found u)
  end.

Definition sample_env (accept_writes : bool) (logout_status : Z) : env :=
  MkEnv (answer accept_writes logout_status) 2024
        (fun s => s) (fun s => s) (fun s => Some (py_int s))
        (fun _ => "<object>").

(** The value of an expression that did not raise. *)
Definition the {A : Type} (default : A) (r : result A) : A :=
  match r with
  | Ok a => a
  | Raise _ => default
  end.

(** Before any call: nothing requested, nothing printed. *)
Definition nothing : world := MkWorld (new_session EmptyString) [] [] [].

(** After the teacher has signed in. *)
Definition teaching (accept_writes : bool) (logout_status : Z) : world :=
  snd (__init__ (sample_env accept_writes logout_status) "teacher" "secret"
         false nothing).

End Scenario.

(** ** The matcher against the words of a pattern *)

Module ReFacts.
Import PyStr Re.

Lemma append_assoc (s1 s2 s3 : string) : (s1 ++ s2) ++ s3 = s1 ++ (s2 ++ s3).
Proof.
  induction s1 as [|a s1 IH]; simpl; [reflexivity | now rewrite IH].
Qed.

Lemma append_nil_r (s : string) : s ++ EmptyString = s.
Proof.
  induction s as [|a s IH]; simpl; [reflexivity | now rewrite IH].
Qed.

Lemma strip_prefix_app (p s : string) : strip_prefix p (p ++ s) = Some s.
Proof.
  induction p as [|a p IH]; simpl; [reflexivity|].
  now rewrite Ascii.eqb_refl.
Qed.

Lemma strip_prefix_Some (p s s' : string) :
  strip_prefix p s = Some s' -> s = p ++ s'.
Proof.
  revert s; induction p as [|a p IH]; intros s H; simpl in *.
  - now inversion H.
  - destruct s as [|b s]; [discriminate|].
    destruct (Ascii.eqb_spec a b) as [->|]; [|discriminate].
    now rewrite (IH _ H).
Qed.

Section Sound.
Context {R : Type}.

Lemma lazy_star_sound c (s : string) :
  forall (k : string -> string -> option R) x,
    lazy_star c k s = Some x ->
    exists t rest, s = t ++ rest /\ all_in c t = true /\ k t rest = Some x.
Proof.
  induction s as [|a s IH]; intros k x H; simpl in H.
  - destruct (k EmptyString EmptyString) eqn:E; [|discriminate].
    inversion H; subst. now exists EmptyString, EmptyString.
  - destruct (k EmptyString (String a s)) eqn:E.
    + inversion H; subst. now exists EmptyString, (String a s).
    + destruct (in_class c a) eqn:Ea; [|discriminate].
      apply IH in H as (t & rest & -> & Ht & Hk).
      exists (String a t), rest; simpl. now rewrite Ea, Ht.
Qed.

Lemma greedy_star_sound c (s : string) :
  forall (k : string -> string -> option R) x,
    greedy_star c k s = Some x ->
    exists t rest, s = t ++ rest /\ all_in c t = true /\ k t rest = Some x.
Proof.
  induction s as [|a s IH]; intros k x H; simpl in H.
  - now exists EmptyString, EmptyString.
  - destruct (in_class c a) eqn:Ea.
    + destruct (greedy_star c _ s) eqn:E.
      * inversion H; subst.
        apply IH in E as (t & rest & -> & Ht & Hk).
        exists (String a t), rest; simpl. now rewrite Ea, Ht.
      * now exists EmptyString, (String a s).
    + now exists EmptyString, (String a s).
Qed.

(** Whatever the matcher accepts is a word of the pattern followed by a
    remainder that the continuation accepted. *)
Lemma run_sound (r : regex) :
  forall (s : string) g (k : string -> string -> groups -> option R) x,
    run r s g k = Some x ->
    exists t rest g', s = t ++ rest /\ lang r t /\ k t rest g' = Some x.
Proof.
  induction r as [c|l|r1 IH1 r2 IH2|r1 IH1|r1 IH1 r2 IH2|c|c| |n r1 IH1];
    intros s g k x H; simpl in H.
  - destruct s as [|a s]; [discriminate|].
    destruct (in_class c a) eqn:Ea; [|discriminate].
    exists (String a EmptyString), s, g. repeat split; auto using LChr.
  - destruct (strip_prefix l s) as [s'|] eqn:E; [|discriminate].
    apply strip_prefix_Some in E. exists l, s', g. auto using LLit.
  - apply IH1 in H as (t1 & rest1 & g1 & -> & L1 & H).
    apply IH2 in H as (t2 & rest2 & g2 & -> & L2 & H).
    exists (t1 ++ t2), rest2, g2. rewrite append_assoc. auto using LSeq.
  - destruct (run r1 s g k) eqn:E.
    + inversion H; subst.
      apply IH1 in E as (t & rest & g' & -> & L & Hk).
      exists t, rest, g'. auto using LOptSome.
    + exists EmptyString, s, g. auto using LOptNone.
  - destruct (run r1 s g k) eqn:E.
    + inversion H; subst.
      apply IH1 in E as (t & rest & g' & -> & L & Hk).
      exists t, rest, g'. auto using LAltL.
    + apply IH2 in H as (t & rest & g' & -> & L & Hk).
      exists t, rest, g'. auto using LAltR.
  - apply lazy_star_sound in H as (t & rest & -> & Ht & Hk).
    exists t, rest, g. auto using LStar.
  - destruct s as [|a s]; [discriminate|].
    destruct (in_class c a) eqn:Ea; [|discriminate].
    apply greedy_star_sound in H as (t & rest & -> & Ht & Hk).
    exists (String a t), rest, g. auto using LPlus.
  - destruct (at_end s); [|discriminate].
    exists EmptyString, s, g. auto using LEos.
  - apply IH1 in H as (t & rest & g' & -> & L & Hk).
    exists t, rest, ((n, t) :: g'). auto using LGroup.
Qed.

Lemma lazy_star_complete c (t : string) :
  forall (k : string -> string -> option R) rest,
    all_in c t = true -> k t rest <> None ->
    lazy_star c k (t ++ rest) <> None.
Proof.
  induction t as [|a t IH]; intros k rest Ht Hk; simpl in *.
  - destruct rest; simpl; destruct (k EmptyString _); congruence.
  - apply andb_prop in Ht as [Ea Ht]. rewrite Ea.
    destruct (k EmptyString _); [congruence|].
    now apply IH.
Qed.

Lemma greedy_star_complete c (t : string) :
  forall (k : string -> string -> option R) rest,
    all_in c t = true -> k t rest <> None ->
    greedy_star c k (t ++ rest) <> None.
Proof.
  induction t as [|a t IH]; intros k rest Ht Hk; simpl in *.
  - destruct rest as [|b rest]; simpl; [assumption|].
    destruct (in_class c b); [|assumption].
    destruct (greedy_star c _ rest); congruence.
  - apply andb_prop in Ht as [Ea Ht]. rewrite Ea.
    specialize (IH (fun run rest0 => k (String a run) rest0) rest Ht Hk).
    destruct (greedy_star c _ (t ++ rest)); congruence.
Qed.

(** A word of the pattern followed by a remainder that the continuation
    accepts is never refused: backtracking reaches it. *)
Lemma run_complete (r : regex) :
  forall (t : string), lang r t ->
  forall rest g (k : string -> string -> groups -> option R),
    eos_free r = true ->
    (forall g', k t rest g' <> None) ->
    run r (t ++ rest) g k <> None.
Proof.
  intros t L; induction L; intros rest g k F Hk; simpl in *;
    try discriminate.
  - rewrite H. apply Hk.
  - rewrite strip_prefix_app. apply Hk.
  - apply andb_prop in F as [F1 F2].
    rewrite append_assoc. apply IHL1; [assumption|].
    intros g1. apply IHL2; [assumption|]. intros g2. apply Hk.
  - destruct (run r rest g k); [congruence | apply Hk].
  - specialize (IHL rest g k F Hk).
    destruct (run r (s ++ rest) g k); congruence.
  - apply andb_prop in F as [F1 F2].
    specialize (IHL rest g k F1 Hk).
    destruct (run r1 (s ++ rest) g k); congruence.
  - apply andb_prop in F as [F1 F2].
    destruct (run r1 (s ++ rest) g k); [congruence|].
    now apply IHL.
  - now apply lazy_star_complete.
  - rewrite H. now apply greedy_star_complete.
  - apply IHL; [assumption|]. intros g'. apply Hk.
Qed.
End Sound.

(** [re.match] succeeds exactly on the strings with a prefix in the
    pattern's words. *)
Lemma re_match_iff_prefix (r : regex) (s : string) :
  eos_free r = true ->
  (re_match r s <> None <-> exists t rest, s = t ++ rest /\ lang r t).
Proof.
  intros F; split.
  - unfold re_match. destruct (run r s [] _) as [m|] eqn:E; [|congruence].
    intros _. apply run_sound in E as (t & rest & g' & -> & L & _).
    now exists t, rest.
  - intros (t & rest & -> & L). unfold re_match.
    apply run_complete; [assumption | assumption | discriminate].
Qed.

(** The text of a match object is a word of the pattern and a prefix of the
    subject. *)
Lemma re_match_matched (r : regex) (s : string) (m : match_obj) :
  re_match r s = Some m ->
  exists rest, s = matched m ++ rest /\ lang r (matched m).
Proof.
  unfold re_match; intros H.
  apply run_sound in H as (t & rest & g' & -> & L & E).
  inversion E; subst; simpl. now exists rest.
Qed.

End ReFacts.

Module NormalizerFacts.
Import PyStr Re Normalizer ReFacts.

Lemma digit_is_word (a : ascii) : is_digit a = true -> is_word a = true.
Proof.
  destruct a as [[] [] [] [] [] [] [] []]; vm_compute; congruence.
Qed.

Lemma word_not_plus (a : ascii) : is_word a = true -> Ascii.eqb a "+" = false.
Proof.
  destruct (Ascii.eqb_spec a "+"%char) as [->|]; [vm_compute; congruence | reflexivity].
Qed.

Lemma word_not_minus (a : ascii) : is_word a = true -> Ascii.eqb a "-" = false.
Proof.
  destruct (Ascii.eqb_spec a "-"%char) as [->|]; [vm_compute; congruence | reflexivity].
Qed.

Ltac reduce_in H := cbn -[is_digit is_word Ascii.eqb] in H.

(** Facts about a fixed character are decided by evaluation. *)
Ltac prune :=
  repeat match goal with
  | E : is_digit ?a = _ |- _ =>
      tryif is_var a then fail else (vm_compute in E; try discriminate E; clear E)
  | E : is_word ?a = _ |- _ =>
      tryif is_var a then fail else (vm_compute in E; try discriminate E; clear E)
  end.

Ltac step H :=
  match type of H with
  | None = Some _ => discriminate H
  | context [match ?s with EmptyString => _ | String _ _ => _ end] =>
      is_var s; destruct s; reduce_in H
  | context [if is_digit ?a then _ else _] =>
      destruct (is_digit a) eqn:?; prune; reduce_in H
  | context [if is_word ?a then _ else _] =>
      match goal with
      | E : is_digit a = true |- _ => rewrite (digit_is_word a E) in H
      | _ => destruct (is_word a) eqn:?; prune
      end; reduce_in H
  | context [Ascii.eqb ?a ?b] =>
      destruct (Ascii.eqb_spec a b); [first [subst a | subst b]|]; prune; reduce_in H
  end.

Ltac shape_with sepv :=
  do 6 eexists; exists sepv; do 5 eexists;
  split;
  [ first [ left; do 2 eexists; repeat split; first [reflexivity | eassumption]
          | right; split; reflexivity ]
  | repeat split; auto using digit_is_word ].

Ltac shape :=
  first [ solve [shape_with EmptyString] | solve [shape_with (String "+" EmptyString)]
        | solve [shape_with (String "-" EmptyString)] ].

Lemma pnr_match_inv (s : string) (m : match_obj) :
  re_match pnrregex s = Some m ->
  exists y1 y2 m1 m2 d1 d2 sep w1 w2 w3 w4 rest,
    ((exists c1 c2,
        s = str2 c1 c2 ++ str2 y1 y2 ++ str4 m1 m2 d1 d2 ++ sep
              ++ str4 w1 w2 w3 w4 ++ rest /\
        m = MkMatch (str2 c1 c2 ++ str2 y1 y2 ++ str4 m1 m2 d1 d2 ++ sep
                       ++ str4 w1 w2 w3 w4)
              [(4, str4 w1 w2 w3 w4); (3, str4 m1 m2 d1 d2);
               (2, str2 y1 y2); (1, str2 c1 c2)]%nat /\
        is_digit c1 = true /\ is_digit c2 = true)
     \/
     (s = str2 y1 y2 ++ str4 m1 m2 d1 d2 ++ sep ++ str4 w1 w2 w3 w4 ++ rest /\
      m = MkMatch (str2 y1 y2 ++ str4 m1 m2 d1 d2 ++ sep ++ str4 w1 w2 w3 w4)
            [(4, str4 w1 w2 w3 w4); (3, str4 m1 m2 d1 d2);
             (2, str2 y1 y2)]%nat)) /\
    (sep = EmptyString \/ sep = "+" \/ sep = "-") /\
    is_digit y1 = true /\ is_digit y2 = true /\ is_digit m1 = true /\
    is_digit m2 = true /\ is_digit d1 = true /\ is_digit d2 = true /\
    is_word w1 = true /\ is_word w2 = true /\ is_word w3 = true /\
    is_word w4 = true.
Proof.
  unfold re_match, pnrregex, d, w. intros H. reduce_in H.
  repeat step H.
  all: inversion H; subst; clear H.
  all: shape.
Qed.

Ltac dshape_with s1v s2v :=
  do 2 eexists; exists s1v; do 2 eexists; exists s2v; do 3 eexists;
  split;
  [ first [ left; do 2 eexists; repeat split; first [reflexivity | eassumption]
          | right; split; reflexivity ]
  | repeat split; auto ].

Ltac dshape :=
  first [ solve [dshape_with EmptyString EmptyString]
        | solve [dshape_with (String "-" EmptyString) EmptyString]
        | solve [dshape_with EmptyString (String "-" EmptyString)]
        | solve [dshape_with (String "-" EmptyString) (String "-" EmptyString)] ].

Lemma dat_match_inv (s : string) (m : match_obj) :
  re_match datregex s = Some m ->
  exists y1 y2 s1 m1 m2 s2 d1 d2 rest,
    ((exists c1 c2,
        s = str2 c1 c2 ++ str2 y1 y2 ++ s1 ++ str2 m1 m2 ++ s2
              ++ str2 d1 d2 ++ rest /\
        m = MkMatch (str2 c1 c2 ++ str2 y1 y2 ++ s1 ++ str2 m1 m2 ++ s2
                       ++ str2 d1 d2)
              [(4, str2 d1 d2); (3, str2 m1 m2); (2, str2 y1 y2);
               (1, str2 c1 c2)]%nat /\
        is_digit c1 = true /\ is_digit c2 = true)
     \/
     (s = str2 y1 y2 ++ s1 ++ str2 m1 m2 ++ s2 ++ str2 d1 d2 ++ rest /\
      m = MkMatch (str2 y1 y2 ++ s1 ++ str2 m1 m2 ++ s2 ++ str2 d1 d2)
            [(4, str2 d1 d2); (3, str2 m1 m2); (2, str2 y1 y2)]%nat)) /\
    (s1 = EmptyString \/ s1 = "-") /\ (s2 = EmptyString \/ s2 = "-") /\
    is_digit y1 = true /\ is_digit y2 = true /\ is_digit m1 = true /\
    is_digit m2 = true /\ is_digit d1 = true /\ is_digit d2 = true.
Proof.
  unfold re_match, datregex, d. intros H. reduce_in H.
  repeat step H.
  all: inversion H; subst; clear H.
  all: dshape.
Qed.

(** Evaluation of the matcher on a subject whose characters are known by
    their classes. *)
Ltac known_char :=
  match goal with
  | E : is_digit ?a = _ |- context [is_digit ?a] => rewrite E
  | E : is_word ?a = _ |- context [is_word ?a] => rewrite E
  | E : is_digit ?a = true |- context [is_word ?a] =>
      rewrite (digit_is_word a E)
  | E : is_word ?a = true |- context [Ascii.eqb ?a "+"] =>
      rewrite (word_not_plus a E)
  | E : is_word ?a = true |- context [Ascii.eqb ?a "-"] =>
      rewrite (word_not_minus a E)
  | E : is_digit ?a = true |- context [Ascii.eqb ?a "+"] =>
      rewrite (word_not_plus a (digit_is_word a E))
  | E : is_digit ?a = true |- context [Ascii.eqb ?a "-"] =>
      rewrite (word_not_minus a (digit_is_word a E))
  | |- context [is_digit ?a] =>
      tryif is_var a then fail
      else (let v := eval vm_compute in (is_digit a) in
            change (is_digit a) with v)
  | |- context [is_word ?a] =>
      tryif is_var a then fail
      else (let v := eval vm_compute in (is_word a) in
            change (is_word a) with v)
  | |- context [Ascii.eqb ?a ?b] =>
      tryif is_var a then fail
      else tryif is_var b then fail
      else (let v := eval vm_compute in (Ascii.eqb a b) in
            change (Ascii.eqb a b) with v)
  end.

Ltac unknown_char :=
  match goal with
  | |- context [if is_digit ?a then _ else _] => destruct (is_digit a) eqn:?
  | |- context [if is_word ?a then _ else _] => destruct (is_word a) eqn:?
  | |- context [Ascii.eqb ?a ?b] =>
      destruct (Ascii.eqb_spec a b); [first [subst a | subst b]|]; prune
  end.

Ltac eval_goal :=
  repeat first
    [ progress cbn -[is_digit is_word Ascii.eqb py_int Z.geb Z.sub Z.add]
    | known_char
    | unknown_char ].

Lemma digit_val_range (a : ascii) :
  is_digit a = true -> (0 <= digit_val a <= 9)%Z.
Proof.
  destruct a as [[] [] [] [] [] [] [] []]; intros H; cbv in H;
    try discriminate H; cbv; split; congruence.
Qed.

Lemma py_int_str2 (a b : ascii) :
  py_int (str2 a b) = (10 * digit_val a + digit_val b)%Z.
Proof. unfold py_int, str2; simpl. lia. Qed.

Lemma py_int_two_digits (a b : ascii) :
  is_digit a = true -> is_digit b = true ->
  (0 <= py_int (str2 a b) <= 99)%Z.
Proof.
  intros Ha Hb. rewrite py_int_str2.
  pose proof (digit_val_range a Ha). pose proof (digit_val_range b Hb). lia.
Qed.

Lemma geb_shift (a b : Z) : (a >=? b + 5)%Z = (a - b >=? 5)%Z.
Proof.
  rewrite !Z.geb_leb.
  destruct (Z.leb_spec (b + 5) a), (Z.leb_spec 5 (a - b)); lia || reflexivity.
Qed.

Lemma year_mod_100 (y : Z) : (2000 <= y < 2100)%Z -> (y mod 100 = y - 2000)%Z.
Proof.
  intros H. symmetry. apply (Z.mod_unique_pos y 100 20); lia.
Qed.

End NormalizerFacts.

(** ** The identifier normaliser: what it returns *)

Module NormalizerTheorems.
Import PyStr Re Normalizer ReFacts NormalizerFacts.

(** C4 (as the code has it).  When the pattern matched without its century
    group, the subject starts with two digits YY, four digits MMDD, an
    optional separator and four word characters; the result is "20" or "19"
    followed by YY, MMDD and the suffix, the separator left out, and it is
    "20" exactly when (current year - 2000) - YY >= 5.  For the years 2000
    to 2099 that is (current year mod 100) - YY >= 5. *)
Theorem validate_person_nr_century_omitted
    (year : Z) (s : string) (m : match_obj) :
  re_match pnrregex s = Some m ->
  group m 1 = None ->
  exists yy mmdd sep suf rest,
    s = yy ++ mmdd ++ sep ++ suf ++ rest /\
    String.length yy = 2 /\ String.length mmdd = 4 /\
    String.length suf = 4 /\
    (sep = EmptyString \/ sep = "+" \/ sep = "-") /\
    (0 <= py_int yy <= 99)%Z /\
    __validate_person_nr year s =
      Some ((if (year - 2000 - py_int yy >=? 5)%Z then "20" else "19")
              ++ yy ++ mmdd ++ suf) /\
    ((2000 <= year < 2100)%Z ->
     __validate_person_nr year s =
       Some ((if (year mod 100 - py_int yy >=? 5)%Z then "20" else "19")
               ++ yy ++ mmdd ++ suf)).
Proof.
  intros E G. unfold __validate_person_nr. rewrite E, G.
  apply pnr_match_inv in E.
  destruct E as (y1 & y2 & m1 & m2 & d1 & d2 & sep & w1 & w2 & w3 & w4 & rest
                 & [(c1 & c2 & Hs & Hm & _) | (Hs & Hm)] & Hsep
                 & Hy1 & Hy2 & _).
  - subst m. discriminate G.
  - exists (str2 y1 y2), (str4 m1 m2 d1 d2), sep, (str4 w1 w2 w3 w4), rest.
    pose proof (py_int_two_digits y1 y2 Hy1 Hy2) as Hr.
    assert (Hres :
      (if (year - 2000 >=? py_int (group_str m 2) + 5)%Z
       then Some ("20" ++ group_str m 2 ++ group_str m 3 ++ group_str m 4)
       else Some ("19" ++ group_str m 2 ++ group_str m 3 ++ group_str m 4)) =
      Some ((if (year - 2000 - py_int (str2 y1 y2) >=? 5)%Z
             then "20" else "19")
              ++ str2 y1 y2 ++ str4 m1 m2 d1 d2 ++ str4 w1 w2 w3 w4)).
    { subst m. unfold group_str, group; simpl lookup_group.
      rewrite geb_shift.
      destruct (year - 2000 - py_int (str2 y1 y2) >=? 5)%Z; reflexivity. }
    repeat split; try assumption; try reflexivity; try apply Hr.
    intros Hyear. rewrite Hres, (year_mod_100 year Hyear). reflexivity.
Qed.

Lemma validate_person_nr_century_omitted_witness :
  exists yy mmdd sep suf rest,
    "051212-1212" = yy ++ mmdd ++ sep ++ suf ++ rest /\
    String.length yy = 2 /\ String.length mmdd = 4 /\
    String.length suf = 4 /\
    (sep = EmptyString \/ sep = "+" \/ sep = "-") /\
    (0 <= py_int yy <= 99)%Z /\
    __validate_person_nr 2024 "051212-1212" =
      Some ((if (2024 - 2000 - py_int yy >=? 5)%Z then "20" else "19")
              ++ yy ++ mmdd ++ suf) /\
    ((2000 <= 2024 < 2100)%Z ->
     __validate_person_nr 2024 "051212-1212" =
       Some ((if (2024 mod 100 - py_int yy >=? 5)%Z then "20" else "19")
               ++ yy ++ mmdd ++ suf)).
Proof.
  apply (validate_person_nr_century_omitted 2024 "051212-1212"
           (MkMatch "051212-1212" [(4, "1212"); (3, "1212"); (2, "05")]%nat));
    reflexivity.
Defined.

(** C4 as stated fails: in the year 2105 the identifier "501212-1212" is
    given the century "20" although 2105 mod 100 - 50 is below 5. *)
Lemma validate_person_nr_mod_100_counterexample :
  ~ (forall (year : Z) (s : string) (m : match_obj),
       re_match pnrregex s = Some m ->
       group m 1 = None ->
       __validate_person_nr year s =
         Some ((if (year mod 100 - py_int (group_str m 2) >=? 5)%Z
                then "20" else "19")
                 ++ group_str m 2 ++ group_str m 3 ++ group_str m 4)).
Proof.
  intros H.
  specialize (H 2105%Z "501212-1212"
                (MkMatch "501212-1212" [(4, "1212"); (3, "1212"); (2, "50")]%nat)
                eq_refl eq_refl).
  vm_compute in H. discriminate H.
Qed.

(** C7.  Date normalisation on "190314" and on "19-03-14" gives
    "2019-03-14", on "abc" it gives nothing, and whenever the pattern matched
    without its century group the result is "20" followed by the two-digit
    year, month and day with dashes. *)
Theorem validate_date_century_omitted :
  __validate_date "190314" = Some "2019-03-14" /\
  __validate_date "19-03-14" = Some "2019-03-14" /\
  __validate_date "abc" = None /\
  (forall (s : string) (m : match_obj),
     re_match datregex s = Some m ->
     group m 1 = None ->
     exists yy mm dd,
       String.length yy = 2 /\ String.length mm = 2 /\ String.length dd = 2 /\
       group m 2 = Some yy /\ group m 3 = Some mm /\ group m 4 = Some dd /\
       __validate_date s = Some ("20" ++ yy ++ "-" ++ mm ++ "-" ++ dd)).
Proof.
  repeat split; try reflexivity.
  intros s m E G. unfold __validate_date. rewrite E, G.
  apply dat_match_inv in E.
  destruct E as (y1 & y2 & s1 & m1 & m2 & s2 & d1 & d2 & rest
                 & [(c1 & c2 & Hs & Hm & _) | (Hs & Hm)] & _).
  - subst m. discriminate G.
  - subst m. exists (str2 y1 y2), (str2 m1 m2), (str2 d1 d2).
    repeat split; reflexivity.
Qed.

Lemma validate_date_century_omitted_witness :
  exists yy mm dd,
    String.length yy = 2 /\ String.length mm = 2 /\ String.length dd = 2 /\
    group (MkMatch "190314" [(4, "14"); (3, "03"); (2, "19")]%nat) 2 = Some yy /\
    group (MkMatch "190314" [(4, "14"); (3, "03"); (2, "19")]%nat) 3 = Some mm /\
    group (MkMatch "190314" [(4, "14"); (3, "03"); (2, "19")]%nat) 4 = Some dd /\
    __validate_date "190314" = Some ("20" ++ yy ++ "-" ++ mm ++ "-" ++ dd).
Proof.
  apply (proj2 (proj2 (proj2 validate_date_century_omitted)) "190314");
    reflexivity.
Defined.

(** C8.  A result of person-identifier normalisation has twelve characters
    and normalising it again, in any year, returns it unchanged. *)
Theorem validate_person_nr_idempotent (year year' : Z) (s c : string) :
  __validate_person_nr year s = Some c ->
  __validate_person_nr year' c = Some c /\ String.length c = 12.
Proof.
  unfold __validate_person_nr at 1.
  destruct (re_match pnrregex s) as [m|] eqn:E; [|discriminate].
  apply pnr_match_inv in E.
  destruct E as (y1 & y2 & m1 & m2 & d1 & d2 & sep & w1 & w2 & w3 & w4 & rest
                 & [(c1 & c2 & Hs & Hm & Hc1 & Hc2) | (Hs & Hm)] & Hsep
                 & Hy1 & Hy2 & Hm1 & Hm2 & Hd1 & Hd2 & Hw1 & Hw2 & Hw3 & Hw4);
    subst m; unfold group_str, group; simpl lookup_group.
  - intros H; inversion H; subst c; clear H.
    split; [|reflexivity].
    unfold __validate_person_nr, re_match, pnrregex, d, w. eval_goal.
    reflexivity.
  - intros H.
    assert (Hc : c = "20" ++ str2 y1 y2 ++ str4 m1 m2 d1 d2 ++ str4 w1 w2 w3 w4
                 \/ c = "19" ++ str2 y1 y2 ++ str4 m1 m2 d1 d2
                          ++ str4 w1 w2 w3 w4).
    { destruct (year - 2000 >=? py_int (str2 y1 y2) + 5)%Z;
        inversion H; auto. }
    clear H. destruct Hc as [-> | ->]; (split; [|reflexivity]);
      unfold __validate_person_nr, re_match, pnrregex, d, w; eval_goal;
      reflexivity.
Qed.

Lemma validate_person_nr_idempotent_witness :
  __validate_person_nr 1999 "200512121212" = Some "200512121212" /\
  String.length "200512121212" = 12.
Proof.
  apply (validate_person_nr_idempotent 2024 1999 "051212-1212").
  reflexivity.
Defined.

Lemma validate_person_nr_some_iff (year : Z) (s : string) :
  __validate_person_nr year s <> None <-> re_match pnrregex s <> None.
Proof.
  unfold __validate_person_nr.
  destruct (re_match pnrregex s) as [m|]; [|tauto].
  destruct (group m 1);
    [|destruct (year - 2000 >=? py_int (group_str m 2) + 5)%Z];
    split; discriminate.
Qed.

Lemma validate_date_some_iff (s : string) :
  __validate_date s <> None <-> re_match datregex s <> None.
Proof.
  unfold __validate_date.
  destruct (re_match datregex s) as [m|]; [|tauto].
  destruct (group m 1); split; discriminate.
Qed.

(** A word of the pattern is accepted by the matcher when nothing may be
    left over. *)
Lemma lang_fullmatch (r : regex) (t : string) :
  lang r t -> eos_free r = true ->
  run r t [] (fun _ rest _ =>
                match rest with EmptyString => Some tt | _ => None end)
    <> None.
Proof.
  intros L F. rewrite <- (append_nil_r t) at 1.
  apply run_complete; [assumption | assumption | discriminate].
Qed.

(** C10.  Both validators match a prefix only.  A string is refused exactly
    when none of its prefixes is a word of the pattern; the result is that of
    the matched prefix alone, whatever follows it; so "19461212-1212EXTRA",
    which is no word of the pattern, normalises to "194612121212". *)
Theorem validation_matches_prefix :
  (forall (year : Z) (s : string),
     __validate_person_nr year s <> None <->
     exists t rest, s = t ++ rest /\ lang pnrregex t) /\
  (forall s : string,
     __validate_date s <> None <->
     exists t rest, s = t ++ rest /\ lang datregex t) /\
  (forall (year : Z) (s : string) (m : match_obj),
     re_match pnrregex s = Some m ->
     exists rest, s = matched m ++ rest /\
       __validate_person_nr year s = __validate_person_nr year (matched m)) /\
  (forall (s : string) (m : match_obj),
     re_match datregex s = Some m ->
     exists rest, s = matched m ++ rest /\
       __validate_date s = __validate_date (matched m)) /\
  (forall year : Z,
     __validate_person_nr year "19461212-1212EXTRA" = Some "194612121212") /\
  ~ lang pnrregex "19461212-1212EXTRA".
Proof.
  split; [|split; [|split; [|split; [|split]]]].
  - intros year s. rewrite validate_person_nr_some_iff.
    apply re_match_iff_prefix. reflexivity.
  - intros s. rewrite validate_date_some_iff.
    apply re_match_iff_prefix. reflexivity.
  - intros year s m E.
    unfold __validate_person_nr at 1. rewrite E.
    apply pnr_match_inv in E.
    destruct E as (y1 & y2 & m1 & m2 & d1 & d2 & sep & w1 & w2 & w3 & w4
                   & rest
                   & [(c1 & c2 & Hs & Hm & Hc1 & Hc2) | (Hs & Hm)] & Hsep
                   & Hy1 & Hy2 & Hm1 & Hm2 & Hd1 & Hd2
                   & Hw1 & Hw2 & Hw3 & Hw4);
      exists rest; subst m; unfold matched;
      (split; [rewrite Hs, !append_assoc; reflexivity|]);
      unfold group_str, group; simpl lookup_group;
      destruct Hsep as [-> | [-> | ->]];
      unfold __validate_person_nr, re_match, pnrregex, d, w; eval_goal;
      reflexivity.
  - intros s m E.
    unfold __validate_date at 1. rewrite E.
    apply dat_match_inv in E.
    destruct E as (y1 & y2 & s1 & m1 & m2 & s2 & d1 & d2 & rest
                   & [(c1 & c2 & Hs & Hm & Hc1 & Hc2) | (Hs & Hm)]
                   & Hs1 & Hs2 & Hy1 & Hy2 & Hm1 & Hm2 & Hd1 & Hd2);
      exists rest; subst m; unfold matched;
      (split; [rewrite Hs, !append_assoc; reflexivity|]);
      unfold group_str, group; simpl lookup_group;
      destruct Hs1 as [-> | ->]; destruct Hs2 as [-> | ->];
      unfold __validate_date, re_match, datregex, d; eval_goal;
      reflexivity.
  - intros year. reflexivity.
  - intros L. apply lang_fullmatch in L; [|reflexivity].
    apply L. vm_compute. reflexivity.
Qed.

Lemma validation_matches_prefix_witness :
  exists rest,
    "0512121212 and more" = "0512121212" ++ rest /\
    __validate_person_nr 2024 "0512121212 and more" =
      __validate_person_nr 2024 "0512121212".
Proof.
  apply (proj1 (proj2 (proj2 validation_matches_prefix)) 2024%Z
           "0512121212 and more"
           (MkMatch "0512121212" [(4, "1212"); (3, "1212"); (2, "05")]%nat)).
  reflexivity.
Defined.

End NormalizerTheorems.

(** ** The session: how statements compose *)

Module SessionFacts.
Import PyStr Re Normalizer Py Session ReFacts NormalizerFacts.
Local Open Scope py_scope.

Lemma bind_Ok {A B : Type} (m : M A) (f : A -> M B) w b w' :
  bind m f w = (Ok b, w') ->
  exists a w1, m w = (Ok a, w1) /\ f a w1 = (Ok b, w').
Proof.
  unfold bind. destruct (m w) as [[a|e] w1]; [|discriminate].
  intros H. now exists a, w1.
Qed.

Lemma bind_eq {A B : Type} (m : M A) (f : A -> M B) w a w1 :
  m w = (Ok a, w1) -> bind m f w = f a w1.
Proof. unfold bind. now intros ->. Qed.

Lemma bind_raise {A B : Type} (m : M A) (f : A -> M B) w e w1 :
  m w = (Raise e, w1) -> bind m f w = (Raise e, w1).
Proof. unfold bind. now intros ->. Qed.

Lemma lift_Ok {A : Type} (r : result A) w a w' :
  lift r w = (Ok a, w') -> r = Ok a /\ w' = w.
Proof. unfold lift. intros H. inversion H. auto. Qed.

Lemma rbind_Ok {A B : Type} (r : result A) (f : A -> result B) b :
  rbind r f = Ok b -> exists a, r = Ok a /\ f a = Ok b.
Proof. destruct r as [a|e]; simpl; [|discriminate]. intros H. now exists a. Qed.

(** *** Dicts with JSON keys *)

Lemma py_eq_refl (k : json) : hashable k = true -> py_eq k k = true.
Proof.
  destruct k; simpl; try discriminate; intros _; auto.
  - now destruct b.
  - apply Z.eqb_refl.
  - apply String.eqb_refl.
Qed.





Lemma hashable_keys_set {A : Type} (k : json) (v : A) d :
  hashable k = true -> hashable_keys d -> hashable_keys (jdict_set k v d).
Proof.
  intros Hk Hd. induction Hd as [|[k0 v0] d H0 Hd IH]; simpl.
  - repeat constructor. assumption.
  - destruct (py_eq k0 k); constructor; auto.
Qed.



Lemma hashable_keys_writes {A : Type} (l : list (json * A)) :
  forall d, hashable_keys l -> hashable_keys d -> hashable_keys (writes l d).
Proof.
  induction l as [|[k v] l IH]; intros d Hl Hd; simpl; [assumption|].
  inversion Hl; subst. apply IH; [assumption|].
  now apply hashable_keys_set.
Qed.





(** *** What a statement leaves alone *)

Lemma keeps_self_ret {A : Type} (a : A) : keeps_self (ret a).
Proof. now intros w. Qed.

Lemma keeps_self_raise {A : Type} (e : exn) : keeps_self (@raise A e).
Proof. now intros w. Qed.

Lemma keeps_self_lift {A : Type} (r : result A) : keeps_self (lift r).
Proof. now intros w. Qed.

Lemma keeps_self_get_self : keeps_self get_self.
Proof. now intros w. Qed.

Lemma keeps_self_bind {A B : Type} (m : M A) (f : A -> M B) :
  keeps_self m -> (forall a, keeps_self (f a)) -> keeps_self (bind m f).
Proof.
  intros Hm Hf w. unfold bind. specialize (Hm w).
  destruct (m w) as [[a|e] w1]; simpl in *; [|assumption].
  now rewrite Hf.
Qed.

Lemma keeps_self_http E rq : keeps_self (http E rq).
Proof. intros w. unfold http. now destruct (server E (trace w) rq). Qed.

Ltac keeps_self_step :=
  match goal with
  | |- keeps_self (bind _ _) => apply keeps_self_bind; [|intros ?]
  | |- keeps_self (ret _) => apply keeps_self_ret
  | |- keeps_self (raise _) => apply keeps_self_raise
  | |- keeps_self (lift _) => apply keeps_self_lift
  | |- keeps_self get_self => apply keeps_self_get_self
  | |- keeps_self (http _ _) => apply keeps_self_http
  | |- keeps_self (if ?b then _ else _) => destruct b
  | |- keeps_self (match ?x with _ => _ end) => destruct x
  | |- keeps_self _ => assumption
  end.

Ltac keeps_self := repeat keeps_self_step.

Lemma keeps_self_session_get E u : keeps_self (session_get E u).
Proof. unfold session_get. keeps_self. Qed.

Lemma keeps_self_session_send E m u j h : keeps_self (session_send E m u j h).
Proof. unfold session_send. keeps_self. Qed.

Lemma keeps_self_require_signed_in : keeps_self require_signed_in.
Proof. unfold require_signed_in. keeps_self. Qed.

Lemma keeps_self_xsrf : keeps_self __get_xsrf_token.
Proof. intros w. unfold __get_xsrf_token. now destruct (session (self w)). Qed.

Create HintDb keeps.

#[export] Hint Resolve keeps_self_session_get keeps_self_session_send
  keeps_self_require_signed_in keeps_self_xsrf : keeps.

Ltac keeps := repeat first [keeps_self_step | solve [auto with keeps]].

Lemma keeps_self_student_data E p : keeps_self (__get_student_data E p).
Proof. unfold __get_student_data. keeps. Qed.

Lemma keeps_self_student_courses E i : keeps_self (__get_student_courses E i).
Proof. unfold __get_student_courses. keeps. Qed.

Lemma keeps_self_moments E r i :
  keeps_self (__get_student_course_moments E r i).
Proof. unfold __get_student_course_moments. keeps. Qed.

Lemma keeps_self_course_results E r i :
  keeps_self (__get_student_course_results E r i).
Proof. unfold __get_student_course_results. keeps. Qed.

#[export] Hint Resolve keeps_self_student_data keeps_self_student_courses
  keeps_self_moments keeps_self_course_results : keeps.

Lemma keeps_self_resolve E a b c d e f :
  keeps_self (save_result_resolve E a b c d e f).
Proof. unfold save_result_resolve. keeps. Qed.

Lemma keeps_self_write E a b c d p :
  keeps_self (save_result_write E a b c d p).
Proof. unfold save_result_write. keeps. Qed.

#[export] Hint Resolve keeps_self_resolve keeps_self_write : keeps.

Lemma keeps_self_save_result E a b c d e f :
  keeps_self (save_result E a b c d e f).
Proof. unfold save_result. keeps. Qed.

Lemma keeps_self_pending_entry E r : keeps_self (pending_entry E r).
Proof. unfold pending_entry. keeps. Qed.

Lemma keeps_self_pending_loop E items :
  forall d, keeps_self (pending_loop E items d).
Proof.
  induction items as [|x items IH]; intros d; simpl.
  - keeps.
  - apply keeps_self_bind; [apply keeps_self_pending_entry|].
    intros a. apply IH.
Qed.

#[export] Hint Resolve keeps_self_pending_loop : keeps.

Lemma keeps_self_get_results E a b : keeps_self (get_results E a b).
Proof. unfold get_results. keeps. Qed.

Lemma keeps_self_get_student_data E a : keeps_self (get_student_data E a).
Proof. unfold get_student_data. keeps. Qed.

Lemma keeps_self_get_student_name E a : keeps_self (get_student_name E a).
Proof. unfold get_student_name. keeps. Qed.

Lemma keeps_self_grading_rights E : keeps_self (grading_rights E).
Proof. unfold grading_rights. keeps. Qed.

Lemma keeps_self_all_grading_scale : keeps_self all_grading_scale.
Proof. unfold all_grading_scale. keeps. Qed.

(** *** Taking a run apart *)

Ltac bind_inv H :=
  let a := fresh "a" in
  let w := fresh "w" in
  let H1 := fresh H in
  apply bind_Ok in H as (a & w & H1 & H).


Lemma ret_Ok {A : Type} (a b : A) w w' :
  ret a w = (Ok b, w') -> a = b /\ w = w'.
Proof. unfold ret. intros H. inversion H. auto. Qed.

Lemma xsrf_Ok w t w' :
  __get_xsrf_token w = (Ok t, w') ->
  w' = w /\ session (self w) = true /\ lookup "XSRF-TOKEN" (cookies w) = Some t.
Proof.
  unfold __get_xsrf_token.
  destruct (session (self w)); [|discriminate].
  destruct (lookup "XSRF-TOKEN" (cookies w)); intros H; inversion H; auto.
Qed.

Lemma lookup_dict_set_same {A : Type} (k : string) (v : A) h :
  lookup k (dict_set k v h) = Some v.
Proof.
  induction h as [|[k' v'] h IH]; simpl.
  - now rewrite String.eqb_refl.
  - destruct (String.eqb k' k) eqn:Ek; simpl; now rewrite Ek.
Qed.

Lemma lookup_dict_set_other {A : Type} (k k' : string) (v : A) h :
  k <> k' -> lookup k' (dict_set k v h) = lookup k' h.
Proof.
  intros Hn. induction h as [|[k0 v0] h IH]; simpl.
  - destruct (String.eqb_spec k k'); [contradiction|reflexivity].
  - destruct (String.eqb_spec k0 k) as [->|]; simpl.
    + destruct (String.eqb_spec k k'); [contradiction|reflexivity].
    + now rewrite IH.
Qed.




(** What [previous_result] finds is the first pending result of the
    moment. *)
Lemma previous_result_Some rs id prev :
  previous_result rs id = Ok (Some prev) ->
  exists pre res post i,
    rs = (pre ++ res :: post)%list /\ id = Some i /\
    pending res = Some prev /\ py_eq (moment_id prev) i = true /\
    Forall (fun r => forall q, pending r = Some q ->
                               py_eq (moment_id q) i = false) pre.
Proof.
  induction rs as [|r rs IH]; simpl; [discriminate|].
  destruct (pending r) as [q|] eqn:Ep.
  - destruct id as [i|]; [|discriminate].
    destruct (py_eq (moment_id q) i) eqn:Eq.
    + intros H; inversion H; subst.
      exists [], r, rs, i. repeat split; auto.
    + intros H. destruct (IH H) as (pre & res & post & i' & -> & Hi & ? & ? & ?).
      inversion Hi; subst i'.
      exists (r :: pre), res, post, i. repeat split; auto.
      constructor; [|assumption].
      intros q' Hq'. rewrite Ep in Hq'. now inversion Hq'; subst.
  - intros H. destruct (IH H) as (pre & res & post & i & -> & -> & ? & ? & ?).
    exists (r :: pre), res, post, i. repeat split; auto.
    constructor; [|assumption].
    intros q' Hq'. rewrite Ep in Hq'. discriminate.
Qed.

Lemma trace_http E rq w :
  trace (snd (http E rq w)) = (trace w ++ [rq])%list.
Proof. unfold http. now destruct (server E (trace w) rq). Qed.


Lemma bind_get_self {B : Type} (f : LadokSession -> M B) w :
  bind get_self f w = f (self w) w.
Proof. reflexivity. Qed.

(** A continuation that leaves the state alone does not show in it. *)
Lemma snd_bind_pure {A B : Type} (m : M A) (k : A -> M B) w :
  (forall a w0, snd (k a w0) = w0) -> snd (bind m k w) = snd (m w).
Proof.
  intros Hk. unfold bind. destruct (m w) as [[a|e] w1]; simpl; auto.
Qed.


(** *** The loops of [get_results] *)





End SessionFacts.

(** ** The session: what its methods do *)

Module SessionTheorems.
Import PyStr Re Normalizer Py Session Scenario ReFacts NormalizerFacts
  SessionFacts.
Local Open Scope py_scope.

(** C5.  On a signed-in session, [save_result] with a grade that is itself a
    scale code (AF, PF), with the grade P against the scale AF, or with one
    of the grades A to E against the scale PF raises the invalid-grade
    exception and leaves the state as it was: no request is made, and the
    person number and the date, which may be anything, are not looked at. *)
Theorem save_result_invalid_grade_before_any_request
    (E : env) (person_nr_raw course_code course_moment result_date_raw
     grade_raw grade_scale : string) (w : world) :
  signed_in (self w) = true ->
  grade_raw = "AF" \/ grade_raw = "PF"
  \/ (grade_raw = "P" /\ grade_scale = "AF")
  \/ (In grade_raw ["A"; "B"; "C"; "D"; "E"] /\ grade_scale = "PF") ->
  save_result E person_nr_raw course_code course_moment result_date_raw
    grade_raw grade_scale w =
  (Raise (Exception
            ("Invalid grade: " ++ grade_raw
               ++ (if list_in grade_raw ["AF"; "PF"]
                   then " looks like a grade_scale"
                   else " does not match grade_scale " ++ grade_scale))),
   w).
Proof.
  intros Hs Hg.
  unfold save_result, save_result_resolve, require_signed_in, get_self, bind.
  rewrite Hs.
  destruct Hg as [-> | [-> | [[-> ->] | [Hin ->]]]]; try reflexivity.
  simpl in Hin.
  destruct Hin as [<- | [<- | [<- | [<- | [<- | []]]]]]; reflexivity.
Qed.

Lemma save_result_invalid_grade_before_any_request_witness :
  save_result (sample_env true 200) "not a person nr" "DD1321" "TEN1"
    "not a date" "A" "PF" (teaching true 200) =
  (Raise (Exception "Invalid grade: A does not match grade_scale PF"),
   teaching true 200).
Proof.
  apply (save_result_invalid_grade_before_any_request (sample_env true 200)
           "not a person nr" "DD1321" "TEN1" "not a date" "A" "PF"
           (teaching true 200)).
  - vm_compute. reflexivity.
  - right. right. right. split; [simpl; auto | reflexivity].
Defined.

(** C3 (as the code has it).  On a session that is not signed in,
    [get_results], [save_result], [get_student_data], [get_student_name],
    [get_student_data_JSON], [get_student_data_by_uid_JSON], [logout],
    [grading_rights], [change_locale], [course_instances_JSON] and
    [organization_info_JSON] raise the not-signed-in exception and leave the
    state as it was; [all_grading_scale] has no such test and returns the
    grade scales of the object. *)
Theorem methods_of_a_session_not_signed_in (E : env) (w : world) :
  signed_in (self w) = false ->
  (forall a b, get_results E a b w = (Raise (Exception "Not signed in."), w))
  /\ (forall a b c d e f,
        save_result E a b c d e f w = (Raise (Exception "Not signed in."), w))
  /\ (forall a, get_student_data E a w
                = (Raise (Exception "Not signed in."), w))
  /\ (forall a, get_student_name E a w
                = (Raise (Exception "Not signed in."), w))
  /\ (forall a b, get_student_data_JSON E a b w
                  = (Raise (Exception "Not signed in."), w))
  /\ (forall a, get_student_data_by_uid_JSON E a w
                = (Raise (Exception "Not signed in."), w))
  /\ logout E w = (Raise (Exception "Not signed in."), w)
  /\ grading_rights E w = (Raise (Exception "Not signed in."), w)
  /\ (forall a, change_locale E a w = (Raise (Exception "Not signed in."), w))
  /\ (forall a b, course_instances_JSON E a b w
                  = (Raise (Exception "Not signed in."), w))
  /\ organization_info_JSON E w = (Raise (Exception "Not signed in."), w)
  /\ all_grading_scale w = (Ok (grade_scales (self w)), w).
Proof.
  intros Hs.
  repeat split; intros;
    unfold get_results, save_result, save_result_resolve, get_student_data,
      get_student_name, get_student_data_JSON, get_student_data_by_uid_JSON,
      logout, grading_rights, change_locale, course_instances_JSON,
      organization_info_JSON, all_grading_scale, require_signed_in, get_self,
      bind, ret;
    rewrite ?Hs; reflexivity.
Qed.

Lemma methods_of_a_session_not_signed_in_witness :
  logout (sample_env true 200) (snd (logout (sample_env true 200)
                                            (teaching true 200)))
  = (Raise (Exception "Not signed in."),
     snd (logout (sample_env true 200) (teaching true 200)))
  /\ fst (all_grading_scale (snd (logout (sample_env true 200)
                                         (teaching true 200))))
     = Ok (grade_scales (self (teaching true 200))).
Proof.
  pose proof (methods_of_a_session_not_signed_in (sample_env true 200)
                (snd (logout (sample_env true 200) (teaching true 200)))
                eq_refl) as H.
  split.
  - apply H.
  - destruct H as (_ & _ & _ & _ & _ & _ & _ & _ & _ & _ & _ & H).
    rewrite H. reflexivity.
Defined.

(** C6 (as the code has it).  The attributes of a session change in one
    case only: a sign-out that the service answers with status 200 clears
    [signed_in] and the [requests] session.  A sign-out answered otherwise,
    and [save_result], [get_results], [get_student_data], [get_student_name]
    and [grading_rights] whatever they return or raise, a write that the
    service rejected included, leave every attribute as it was. *)
Theorem session_deactivated_only_by_accepted_logout (E : env) (w : world) :
  signed_in (self w) = true ->
  (forall r w', logout E w = (Ok r, w') ->
     if (status_code r =? 200)%Z
     then signed_in (self w') = false /\ session (self w') = false
     else self w' = self w)
  /\ (forall e w', logout E w = (Raise e, w') -> self w' = self w)
  /\ (forall a b c d e f, self (snd (save_result E a b c d e f w)) = self w)
  /\ (forall a b, self (snd (get_results E a b w)) = self w)
  /\ (forall a, self (snd (get_student_data E a w)) = self w)
  /\ (forall a, self (snd (get_student_name E a w)) = self w)
  /\ self (snd (grading_rights E w)) = self w.
Proof.
  intros Hs. repeat split; intros.
  - revert H. unfold logout, require_signed_in, get_self, bind at 1 2.
    rewrite Hs. unfold ret at 1.
    pose proof (keeps_self_session_get E
                  (fun o => Ok (base_gui_proxy_url o ++ "/logout")) w) as K.
    unfold bind.
    destruct (session_get E _ w) as [[r0|e0] w0]; [|discriminate].
    simpl in K.
    destruct (status_code r0 =? 200)%Z eqn:St; unfold modify_self, ret;
      intros H; inversion H; subst; rewrite St; simpl; auto.
  - revert H. unfold logout, require_signed_in, get_self, bind at 1 2.
    rewrite Hs. unfold ret at 1.
    pose proof (keeps_self_session_get E
                  (fun o => Ok (base_gui_proxy_url o ++ "/logout")) w) as K.
    unfold bind.
    destruct (session_get E _ w) as [[r0|e0] w0]; simpl in K.
    + destruct (status_code r0 =? 200)%Z; unfold modify_self, ret;
        discriminate.
    + intros H; inversion H; subst; assumption.
  - apply keeps_self_save_result.
  - apply keeps_self_get_results.
  - apply keeps_self_get_student_data.
  - apply keeps_self_get_student_name.
  - apply keeps_self_grading_rights.
Qed.

Lemma session_deactivated_only_by_accepted_logout_witness :
  self (snd (save_result (sample_env false 200) "461212-1212" "DD1321" "TEN1"
               "190314" "E" "AF" (teaching false 200)))
  = self (teaching false 200).
Proof.
  apply (session_deactivated_only_by_accepted_logout (sample_env false 200)
           (teaching false 200)).
  vm_compute. reflexivity.
Defined.

(** C6 as stated fails: the sample service rejects the update of the grade
    for TEN1, [save_result] raises its could-not-enter exception, and the
    session is still signed in. *)
Lemma rejected_write_keeps_session_counterexample :
  ~ (forall (E : env) (a b c d e f : string) (w w' : world) (msg : string),
       signed_in (self w) = true ->
       save_result E a b c d e f w = (Raise (Exception msg), w') ->
       strip_prefix "Kunde inte mata in " msg <> None ->
       signed_in (self w') = false).
Proof.
  intros H.
  specialize (H (sample_env false 200) "461212-1212" "DD1321" "TEN1" "190314"
                "E" "AF" (teaching false 200)
                (snd (save_result (sample_env false 200) "461212-1212"
                        "DD1321" "TEN1" "190314" "E" "AF"
                        (teaching false 200)))
                ("Kunde inte mata in 461212-1212 TEN1 : E 190314"
                   ++ String newline "Stale")).
  assert (X : true = false); [|discriminate X].
  apply H.
  - vm_compute. reflexivity.
  - vm_compute. reflexivity.
  - vm_compute. discriminate.
Qed.

(** C9.  Let the handshake have gone as far as the reply to the
    credentials.  If that page holds no action form, [__init__] raises the
    exception "Invalid username or password."; if it holds the assertion,
    the assertion was posted back and the page returned holds the
    not-a-teacher marker, [__init__] raises "Signed in successfully, but not
    as a teacher.". *)
Theorem handshake_failures
    (E : env) (username password : string) (testenvironment_flag : bool)
    (w : world) (r : response) (w1 : world) :
  bind (init_attributes testenvironment_flag)
       (fun _ => init_login E username password) w = (Ok r, w1) ->
  (re_search action_re (text r) = None ->
   __init__ E username password testenvironment_flag w =
     (Raise (Exception "Invalid username or password."), w1))
  /\ (forall r2 w2,
        init_assertion E r w1 = (Ok r2, w2) ->
        str_in not_a_teacher_marker (text r2) = true ->
        __init__ E username password testenvironment_flag w =
          (Raise (Exception "Signed in successfully, but not as a teacher."),
           w2)).
Proof.
  intros H. unfold __init__.
  apply bind_Ok in H as (u & w0 & H0 & H1).
  split.
  - intros Hn. rewrite (bind_eq _ _ _ _ _ H0), (bind_eq _ _ _ _ _ H1).
    apply bind_raise. unfold init_assertion. now rewrite Hn.
  - intros r2 w2 H2 Hm.
    rewrite (bind_eq _ _ _ _ _ H0), (bind_eq _ _ _ _ _ H1),
      (bind_eq _ _ _ _ _ H2).
    apply bind_raise. now rewrite Hm.
Qed.

Lemma handshake_failures_witness :
  fst (__init__ (sample_env true 200) "teacher" "wrong" false nothing)
  = Raise (Exception "Invalid username or password.")
  /\ fst (__init__ (sample_env true 200) "student" "secret" false nothing)
     = Raise (Exception "Signed in successfully, but not as a teacher.").
Proof.
  set (E := sample_env true 200).
  pose (none := MkResponse 0 EmptyString EmptyString None []).
  pose (x := bind (init_attributes false)
                  (fun _ => init_login E "teacher" "wrong") nothing).
  pose (y := bind (init_attributes false)
                  (fun _ => init_login E "student" "secret") nothing).
  pose (z := init_assertion E (the none (fst y)) (snd y)).
  split.
  - rewrite (proj1 (handshake_failures E "teacher" "wrong" false nothing
                      (the none (fst x)) (snd x)
                      ltac:(vm_compute; reflexivity))
                   ltac:(vm_compute; reflexivity)).
    reflexivity.
  - rewrite (proj2 (handshake_failures E "student" "secret" false nothing
                      (the none (fst y)) (snd y)
                      ltac:(vm_compute; reflexivity))
                   (the none (fst z)) (snd z)
                   ltac:(vm_compute; reflexivity)
                   ltac:(vm_compute; reflexivity)).
    reflexivity.
Defined.





End SessionTheorems.

(** ** Further properties of the normaliser *)

Module NormalizerMore.
Import PyStr Re Normalizer ReFacts NormalizerFacts.

(** A result of date normalisation has ten characters and normalising it
    again returns it unchanged. *)
Theorem validate_date_idempotent (s c : string) :
  __validate_date s = Some c ->
  __validate_date c = Some c /\ String.length c = 10.
Proof.
  unfold __validate_date at 1.
  destruct (re_match datregex s) as [m|] eqn:E; [|discriminate].
  apply dat_match_inv in E.
  destruct E as (y1 & y2 & s1 & m1 & m2 & s2 & d1 & d2 & rest
                 & [(c1 & c2 & Hs & Hm & Hc1 & Hc2) | (Hs & Hm)] & Hs1 & Hs2
                 & Hy1 & Hy2 & Hm1 & Hm2 & Hd1 & Hd2);
    subst m; unfold group_str, group; simpl lookup_group;
    intros H; inversion H; subst c; clear H;
    (split; [|reflexivity]);
    unfold __validate_date, re_match, datregex, d; eval_goal; reflexivity.
Qed.

Lemma validate_date_idempotent_witness :
  __validate_date "2019-03-14" = Some "2019-03-14"
  /\ String.length "2019-03-14" = 10.
Proof.
  apply (validate_date_idempotent "190314"). reflexivity.
Defined.

(** When the subject starts with eight digits, an optional separator and
    four word characters, person-number normalisation returns the eight
    digits and the four characters, whatever the year and whatever the
    first two digits are: a written century is not checked. *)
Theorem validate_person_nr_century_written
    (year : Z) (c1 c2 y1 y2 m1 m2 d1 d2 w1 w2 w3 w4 : ascii)
    (sep rest : string) :
  is_digit c1 = true -> is_digit c2 = true ->
  is_digit y1 = true -> is_digit y2 = true ->
  is_digit m1 = true -> is_digit m2 = true ->
  is_digit d1 = true -> is_digit d2 = true ->
  is_word w1 = true -> is_word w2 = true ->
  is_word w3 = true -> is_word w4 = true ->
  sep = EmptyString \/ sep = "+" \/ sep = "-" ->
  __validate_person_nr year
    (str4 c1 c2 y1 y2 ++ str4 m1 m2 d1 d2 ++ sep ++ str4 w1 w2 w3 w4 ++ rest)
  = Some (str4 c1 c2 y1 y2 ++ str4 m1 m2 d1 d2 ++ str4 w1 w2 w3 w4).
Proof.
  intros Hc1 Hc2 Hy1 Hy2 Hm1 Hm2 Hd1 Hd2 Hw1 Hw2 Hw3 Hw4 [-> | [-> | ->]];
    unfold __validate_person_nr, re_match, pnrregex, d, w; eval_goal;
    reflexivity.
Qed.

Lemma validate_person_nr_century_written_witness :
  __validate_person_nr 2024 "46121212-1212 and more" = Some "461212121212".
Proof.
  apply (validate_person_nr_century_written 2024 "4" "6" "1" "2" "1" "2" "1"
           "2" "1" "2" "1" "2" "-" " and more"); auto.
Defined.

(** With the century left out, the inferred century never goes back: once a
    year gives "20", every later year gives "20" and the same result. *)
Theorem validate_person_nr_century_monotone
    (year year' : Z) (s t : string) (m : match_obj) :
  re_match pnrregex s = Some m ->
  group m 1 = None ->
  (year <= year')%Z ->
  __validate_person_nr year s = Some ("20" ++ t) ->
  __validate_person_nr year' s = Some ("20" ++ t).
Proof.
  intros E G Hle. unfold __validate_person_nr. rewrite E, G.
  destruct (year - 2000 >=? py_int (group_str m 2) + 5)%Z eqn:C.
  - intros H.
    destruct (year' - 2000 >=? py_int (group_str m 2) + 5)%Z eqn:C';
      [assumption|].
    rewrite Z.geb_leb in C, C'.
    apply Z.leb_le in C. apply Z.leb_gt in C'. lia.
  - intros H. inversion H.
Qed.

Lemma validate_person_nr_century_monotone_witness :
  __validate_person_nr 2060 "051212-1212" = Some ("20" ++ "0512121212").
Proof.
  apply (validate_person_nr_century_monotone 2024 2060 "051212-1212"
           "0512121212"
           (MkMatch "051212-1212" [(4, "1212"); (3, "1212"); (2, "05")]%nat));
    try reflexivity.
  lia.
Defined.

End NormalizerMore.

(** ** Further properties of the session *)

Module SessionMore.
Import PyStr Re Normalizer Py Session Spreadsheet Scenario ReFacts
  NormalizerFacts SessionFacts.
Local Open Scope py_scope.

(** A normalised person number is never the empty string, so the test
    [if not person_nr] only catches None. *)
Lemma validate_person_nr_nonempty (year : Z) (s : string) :
  nonempty (__validate_person_nr year s) = __validate_person_nr year s.
Proof.
  unfold __validate_person_nr.
  destruct (re_match pnrregex s) as [m|] eqn:E; [|reflexivity].
  apply pnr_match_inv in E.
  destruct E as (y1 & y2 & m1 & m2 & d1 & d2 & sep & w1 & w2 & w3 & w4 & rest
                 & [(c1 & c2 & Hs & Hm & _) | (Hs & Hm)] & _);
    subst m; unfold group_str, group; simpl lookup_group.
  - reflexivity.
  - destruct (_ >=? _)%Z; reflexivity.
Qed.

Lemma validate_date_nonempty (s : string) :
  nonempty (__validate_date s) = __validate_date s.
Proof.
  unfold __validate_date.
  destruct (re_match datregex s) as [m|] eqn:E; [|reflexivity].
  apply dat_match_inv in E.
  destruct E as (y1 & y2 & s1 & m1 & m2 & s2 & d1 & d2 & rest
                 & [(c1 & c2 & Hs & Hm & _) | (Hs & Hm)] & _);
    subst m; unfold group_str, group; simpl lookup_group; reflexivity.
Qed.

(** On a signed-in session a person number that does not normalise makes
    [get_results], [get_student_data], [get_student_name],
    [get_student_data_JSON] and, for a grade that passes the grade tests,
    [save_result] raise "Invalid person nr " followed by the argument, with
    the state unchanged: no request is made. *)
Theorem invalid_person_nr_makes_no_request
    (E : env) (w : world) (person_nr_raw : string) :
  signed_in (self w) = true ->
  __validate_person_nr (now_year E) person_nr_raw = None ->
  (forall c, get_results E person_nr_raw c w
             = (Raise (Exception ("Invalid person nr " ++ person_nr_raw)), w))
  /\ get_student_data E person_nr_raw w
     = (Raise (Exception ("Invalid person nr " ++ person_nr_raw)), w)
  /\ get_student_name E person_nr_raw w
     = (Raise (Exception ("Invalid person nr " ++ person_nr_raw)), w)
  /\ (forall l, get_student_data_JSON E person_nr_raw l w
                = (Raise (Exception ("Invalid person nr " ++ person_nr_raw)),
                   w))
  /\ (forall c m d g sc,
        list_in g ["AF"; "PF"] = false ->
        (String.eqb g "P" && String.eqb sc "AF")
        || (str_in g "ABCDE" && String.eqb sc "PF") = false ->
        save_result E person_nr_raw c m d g sc w
        = (Raise (Exception ("Invalid person nr " ++ person_nr_raw)), w)).
Proof.
  intros Hs Hv.
  repeat split; intros;
    unfold get_results, get_student_data, get_student_name,
      get_student_data_JSON, save_result, save_result_resolve,
      require_signed_in, get_self, bind, ret;
    rewrite ?Hs, ?Hv; try reflexivity.
  rewrite H, H0. reflexivity.
Qed.

Lemma invalid_person_nr_makes_no_request_witness :
  get_student_data (sample_env true 200) "12 December" (teaching true 200)
  = (Raise (Exception "Invalid person nr 12 December"), teaching true 200).
Proof.
  apply (invalid_person_nr_makes_no_request (sample_env true 200)
           (teaching true 200) "12 December").
  - vm_compute. reflexivity.
  - vm_compute. reflexivity.
Defined.

(** On a signed-in session, with a grade that passes the grade tests and a
    person number that normalises, a date that does not normalise makes
    [save_result] raise "Invalid grade date: " with the date, the person
    number and the moment as given, and no request is made. *)
Theorem invalid_date_makes_no_request
    (E : env) (w : world) (person_nr_raw c m d g sc person_nr : string) :
  signed_in (self w) = true ->
  list_in g ["AF"; "PF"] = false ->
  (String.eqb g "P" && String.eqb sc "AF")
  || (str_in g "ABCDE" && String.eqb sc "PF") = false ->
  __validate_person_nr (now_year E) person_nr_raw = Some person_nr ->
  __validate_date d = None ->
  save_result E person_nr_raw c m d g sc w
  = (Raise (Exception ("Invalid grade date: " ++ d ++ " pnr: "
                         ++ person_nr_raw ++ " moment: " ++ m)), w).
Proof.
  intros Hs Hg1 Hg2 Hp Hd.
  unfold save_result, save_result_resolve, require_signed_in, get_self, bind,
    ret.
  rewrite Hs, Hg1, Hg2, validate_person_nr_nonempty, Hp, Hd. reflexivity.
Qed.

Lemma invalid_date_makes_no_request_witness :
  save_result (sample_env true 200) "461212-1212" "DD1321" "TEN1" "14 March"
    "E" "AF" (teaching true 200)
  = (Raise (Exception
              "Invalid grade date: 14 March pnr: 461212-1212 moment: TEN1"),
     teaching true 200).
Proof.
  apply (invalid_date_makes_no_request (sample_env true 200)
           (teaching true 200) "461212-1212" "DD1321" "TEN1" "14 March" "E"
           "AF" "194612121212"); vm_compute; reflexivity.
Defined.

(** The test of a grade against the scale PF is a substring test: on a
    signed-in session every grade that occurs in "ABCDE" as a run of
    characters, the empty grade and "BC" included, is refused against PF
    without any request. *)
Theorem save_result_refuses_runs_of_ABCDE
    (E : env) (w : world) (p c m d g : string) :
  signed_in (self w) = true ->
  str_in g "ABCDE" = true ->
  save_result E p c m d g "PF" w
  = (Raise (Exception ("Invalid grade: " ++ g
                         ++ " does not match grade_scale PF")), w).
Proof.
  intros Hs Hg.
  unfold save_result, save_result_resolve, require_signed_in, get_self, bind,
    ret.
  rewrite Hs, Hg.
  assert (Hl : list_in g ["AF"; "PF"] = false).
  { unfold list_in; simpl.
    destruct (String.eqb_spec g "AF") as [->|]; [discriminate Hg|].
    destruct (String.eqb_spec g "PF") as [->|]; [discriminate Hg|].
    reflexivity. }
  rewrite Hl. simpl. rewrite orb_true_r. reflexivity.
Qed.

Lemma save_result_refuses_runs_of_ABCDE_witness :
  save_result (sample_env true 200) "461212-1212" "DD1321" "LAB1" "190314"
    EmptyString "PF" (teaching true 200)
  = (Raise (Exception "Invalid grade:  does not match grade_scale PF"),
     teaching true 200).
Proof.
  apply (save_result_refuses_runs_of_ABCDE (sample_env true 200)
           (teaching true 200) "461212-1212" "DD1321" "LAB1" "190314"
           EmptyString); vm_compute; reflexivity.
Defined.



(** The loop over the moments has no [break]: of several moments with the
    code the last one gives the target id; with none the id stays
    unbound. *)
Theorem moment_id_of_last
    (course_moment : string) (pre post : list Moment) (x : Moment) :
  py_eq (moment_code x) (JStr course_moment) = true ->
  Forall (fun y => py_eq (moment_code y) (JStr course_moment) = false) post ->
  moment_id_of course_moment (pre ++ x :: post)%list
  = Some (course_moment_id x).
Proof.
  intros Hx Hpost. unfold moment_id_of.
  rewrite fold_left_app. simpl. rewrite Hx.
  induction Hpost as [|y post Hy _ IH]; simpl; [reflexivity|].
  now rewrite Hy.
Qed.

Lemma moment_id_of_last_witness :
  moment_id_of "TEN1"
    ([MkMoment (JStr "ins1") (JStr "TEN1") (JStr "edu1") (JStr "Tenta")]
     ++ MkMoment (JStr "ins9") (JStr "TEN1") (JStr "edu1") (JStr "Omtenta")
        :: [MkMoment (JStr "ins2") (JStr "LAB1") (JStr "edu1") (JStr "Labb")])
  = Some (JStr "ins9").
Proof.
  apply (moment_id_of_last "TEN1").
  - reflexivity.
  - repeat constructor.
Defined.

(** *** Requests, one at a time *)

Lemma http_Ok E rq w r w1 :
  http E rq w = (Ok r, w1) ->
  server E (trace w) rq = Ok r /\ self w1 = self w
  /\ trace w1 = (trace w ++ [rq])%list /\ stdout w1 = stdout w.
Proof.
  unfold http. destruct (server E (trace w) rq) as [r0|e]; [|discriminate].
  intros H; inversion H; subst; auto.
Qed.

Lemma session_get_Ok E u w r w1 :
  session_get E u w = (Ok r, w1) ->
  exists url,
    session (self w) = true /\ u (self w) = Ok url
    /\ http E (MkRequest GET url (headers (self w)) NoData) w = (Ok r, w1).
Proof.
  unfold session_get. rewrite bind_get_self.
  destruct (session (self w)); [|discriminate].
  intros H. bind_inv H. apply lift_Ok in H0 as (Hu & ->).
  now exists a.
Qed.

Lemma session_send_Ok E m u j h w r w1 :
  session_send E m u j h w = (Ok r, w1) ->
  session (self w) = true /\ http E (MkRequest m u h (Json j)) w = (Ok r, w1).
Proof.
  unfold session_send. rewrite bind_get_self.
  destruct (session (self w)); [auto|discriminate].
Qed.

(** [save_result] never returns False: it returns True, and only after a
    write (a PUT or a POST) whose reply is a JSON document with the key
    Resultat; that write is the one request made after the reads. *)
Theorem save_result_returns_true_after_accepted_write
    (E : env) (a b c d e f : string) (w : world) (v : bool) (w' : world) :
  save_result E a b c d e f w = (Ok v, w') ->
  v = true
  /\ exists p w1 rq r j,
       save_result_resolve E a b c d e f w = (Ok p, w1)
       /\ (req_method rq = PUT \/ req_method rq = POST)
       /\ server E (trace w1) rq = Ok r
       /\ json_body r = Some j /\ contains "Resultat" j = Ok true
       /\ trace w' = (trace w1 ++ [rq])%list.
Proof.
  unfold save_result. intros H.
  apply bind_Ok in H as (p & w1 & Hres & H).
  unfold save_result_write in H.
  apply bind_Ok in H as (prev & w2 & Hprev & H).
  apply lift_Ok in Hprev as (Hprev & ->).
  rewrite bind_get_self in H.
  apply bind_Ok in H as (r & w3 & Hsend & H).
  apply bind_Ok in H as (acc & w4 & Hacc & H).
  apply lift_Ok in Hacc as (Hacc & ->).
  apply rbind_Ok in Hacc as (j & Hj & Hc).
  destruct acc; simpl in H; [|discriminate].
  apply ret_Ok in H as (<- & <-).
  split; [reflexivity|].
  assert (Hrq : exists rq, (req_method rq = PUT \/ req_method rq = POST)
                           /\ http E rq w1 = (Ok r, w3)).
  { destruct prev as [prev|].
    - apply session_send_Ok in Hsend as (_ & Hh). eexists. split; [|exact Hh].
      now left.
    - destruct (target_moment_id p); [|discriminate].
      apply session_send_Ok in Hsend as (_ & Hh). eexists. split; [|exact Hh].
      now right. }
  destruct Hrq as (rq & Hm & Hh).
  apply http_Ok in Hh as (Hserver & _ & Htrace & _).
  exists p, w1, rq, r, j. repeat split; auto.
  unfold resp_json in Hj. destruct (json_body r); [|discriminate].
  now inversion Hj.
Qed.

Lemma save_result_returns_true_after_accepted_write_witness :
  the false (fst (save_result (sample_env true 200) "461212-1212" "DD1321"
                    "LAB1" "190314" "P" "PF" (teaching true 200)))
  = true.
Proof.
  pose (x := save_result (sample_env true 200) "461212-1212" "DD1321" "LAB1"
               "190314" "P" "PF" (teaching true 200)).
  apply (save_result_returns_true_after_accepted_write (sample_env true 200)
           "461212-1212" "DD1321" "LAB1" "190314" "P" "PF"
           (teaching true 200) (the false (fst x)) (snd x)).
  vm_compute. reflexivity.
Defined.

(** A sign-out that succeeds makes one request, the GET of the sign-out
    address.  When the answer has status 200 the object is left without its
    session, and a further [logout], [get_results] or [save_result] raises
    "Not signed in." without any request; with any other status the object
    is as it was. *)
Theorem logout_once
    (E : env) (w : world) (r : response) (w1 : world) :
  logout E w = (Ok r, w1) ->
  trace w1 = (trace w ++ [MkRequest GET (base_gui_proxy_url (self w)
                                           ++ "/logout")
                            (headers (self w)) NoData])%list
  /\ cookies w1 = fold_left (fun c kv => dict_set (fst kv) (snd kv) c)
                            (set_cookie r) (cookies w)
  /\ ((status_code r =? 200)%Z = true ->
      inactive w1
      /\ logout E w1 = (Raise (Exception "Not signed in."), w1)
      /\ (forall a b, get_results E a b w1
                      = (Raise (Exception "Not signed in."), w1))
      /\ (forall a b c d e f, save_result E a b c d e f w1
                              = (Raise (Exception "Not signed in."), w1)))
  /\ ((status_code r =? 200)%Z = false -> self w1 = self w).
Proof.
  unfold logout. intros H.
  apply bind_Ok in H as (u & w0 & Hreq & H).
  unfold require_signed_in in Hreq. rewrite bind_get_self in Hreq.
  destruct (signed_in (self w)) eqn:Hs; [|discriminate].
  apply ret_Ok in Hreq as (_ & <-).
  apply bind_Ok in H as (r0 & w2 & Hget & H).
  apply session_get_Ok in Hget as (url & Hsess & Hurl & Hh).
  inversion Hurl; subst url; clear Hurl.
  pose proof Hh as Hh'.
  apply http_Ok in Hh as (Hserver & Hself & Htrace & Hout).
  assert (Hcookies : cookies w2
                     = fold_left (fun c kv => dict_set (fst kv) (snd kv) c)
                                 (set_cookie r0) (cookies w)).
  { unfold http in Hh'. rewrite Hserver in Hh'. now inversion Hh'. }
  destruct (status_code r0 =? 200)%Z eqn:St.
  - apply bind_Ok in H as ([] & w3 & Hmod & H).
    apply ret_Ok in H as (<- & <-).
    unfold modify_self in Hmod. inversion Hmod; subst w3; clear Hmod.
    simpl. rewrite St. repeat split; try assumption; try discriminate.
    all: intros;
      unfold logout, get_results, save_result, save_result_resolve,
        require_signed_in, get_self, bind, ret; reflexivity.
  - apply bind_Ok in H as ([] & w3 & Hmod & H).
    apply ret_Ok in Hmod as (_ & <-).
    apply ret_Ok in H as (<- & <-).
    rewrite St. repeat split; try assumption; try discriminate.
    intros _. assumption.
Qed.

Lemma logout_once_witness :
  let w1 := snd (logout (sample_env true 200) (teaching true 200)) in
  inactive w1
  /\ logout (sample_env true 200) w1 = (Raise (Exception "Not signed in."), w1).
Proof.
  intros w1.
  pose (x := logout (sample_env true 200) (teaching true 200)).
  destruct (logout_once (sample_env true 200) (teaching true 200)
              (the (MkResponse 0 EmptyString EmptyString None []) (fst x))
              (snd x) ltac:(vm_compute; reflexivity))
    as (_ & _ & H & _).
  destruct (H ltac:(vm_compute; reflexivity)) as (H1 & H2 & _).
  split; [exact H1 | exact H2].
Defined.

(** *** The handshake *)

Lemma bind_Raise {A B : Type} (m : M A) (f : A -> M B) w e w' :
  bind m f w = (Raise e, w') ->
  m w = (Raise e, w')
  \/ exists a w1, m w = (Ok a, w1) /\ f a w1 = (Raise e, w').
Proof.
  unfold bind. destruct (m w) as [[a|e0] w1]; intros H.
  - right. now exists a, w1.
  - left. inversion H. reflexivity.
Qed.

Lemma inactive_of_self w w1 : self w1 = self w -> inactive w -> inactive w1.
Proof. unfold inactive. now intros ->. Qed.

Lemma keeps_self_init_login E u p : keeps_self (init_login E u p).
Proof. unfold init_login. keeps. Qed.

Lemma keeps_self_init_assertion E r : keeps_self (init_assertion E r).
Proof. unfold init_assertion. keeps. Qed.

(** The loop over the grade scales changes the table of scales only. *)
Lemma append_grade_scales_frame E items :
  forall w,
    let w1 := snd (append_grade_scales E items w) in
    trace w1 = trace w /\ stdout w1 = stdout w /\ cookies w1 = cookies w
    /\ base_url (self w1) = base_url (self w)
    /\ base_gui_url (self w1) = base_gui_url (self w)
    /\ base_gui_proxy_url (self w1) = base_gui_proxy_url (self w)
    /\ headers (self w1) = headers (self w)
    /\ signed_in (self w1) = signed_in (self w)
    /\ session (self w1) = session (self w).
Proof.
  induction items as [|x items IH]; intros w; simpl.
  - repeat split.
  - unfold bind at 1, lift.
    destruct (read_grade_scale E x) as [sc|e]; simpl; [|repeat split].
    unfold bind at 1, modify_self.
    apply (IH (MkWorld (set_grade_scales (grade_scales (self w) ++ [sc])%list
                          (self w))
                 (cookies w) (trace w) (stdout w))).
Qed.

Lemma inactive_init_grade_scales E w :
  inactive w -> inactive (snd (init_grade_scales E w)).
Proof.
  intros Hi. unfold init_grade_scales. rewrite bind_get_self.
  unfold bind at 1.
  pose proof (keeps_self_http E
                (MkRequest GET (base_gui_proxy_url (self w)
                                  ++ "/resultat/grunddata/betygsskala")
                   (headers (self w)) NoData) w) as K.
  destruct (http E _ w) as [[r|e] w1]; simpl in K;
    [|now apply (inactive_of_self w)].
  assert (Hi1 : inactive w1) by now apply (inactive_of_self w).
  unfold bind at 1, lift.
  destruct (rbind (resp_json r) _) as [items|e]; [|assumption].
  unfold bind at 1.
  pose proof (append_grade_scales_frame E items w1) as F. simpl in F.
  destruct (append_grade_scales E items w1) as [[u|e] w2]; simpl in *;
    destruct F as (_ & _ & _ & _ & _ & _ & _ & F1 & F2);
    destruct Hi1 as [H1 H2]; unfold inactive; simpl;
    rewrite ?F1, ?F2; auto.
Qed.

(** A handshake that fails, at whatever step and with whatever exception,
    leaves the object not signed in and without a session. *)
Theorem failed_handshake_is_not_signed_in
    (E : env) (username password : string) (testenvironment_flag : bool)
    (w : world) (e : exn) (w' : world) :
  __init__ E username password testenvironment_flag w = (Raise e, w') ->
  inactive w'.
Proof.
  unfold __init__. intros H.
  assert (H0 : exists w0, init_attributes testenvironment_flag w = (Ok tt, w0)
                          /\ inactive w0).
  { unfold init_attributes. destruct testenvironment_flag;
      eexists; (split; [reflexivity|split; reflexivity]). }
  destruct H0 as (w0 & H0 & Hi0).
  rewrite (bind_eq _ _ _ _ _ H0) in H.
  apply bind_Raise in H as [H | (r & w1 & H1 & H)].
  { pose proof (keeps_self_init_login E username password w0) as K.
    rewrite H in K. now apply (inactive_of_self w0). }
  assert (Hi1 : inactive w1).
  { pose proof (keeps_self_init_login E username password w0) as K.
    rewrite H1 in K. now apply (inactive_of_self w0). }
  apply bind_Raise in H as [H | (r2 & w2 & H2 & H)].
  { pose proof (keeps_self_init_assertion E r w1) as K.
    rewrite H in K. now apply (inactive_of_self w1). }
  assert (Hi2 : inactive w2).
  { pose proof (keeps_self_init_assertion E r w1) as K.
    rewrite H2 in K. now apply (inactive_of_self w1). }
  apply bind_Raise in H as [H | (u & w3 & H3 & H)].
  { destruct (str_in not_a_teacher_marker (text r2));
      inversion H; subst; assumption. }
  assert (Hi3 : inactive w3).
  { destruct (str_in not_a_teacher_marker (text r2));
      inversion H3; subst; assumption. }
  apply bind_Raise in H as [H | (u4 & w4 & H4 & H)].
  { pose proof (inactive_init_grade_scales E w3 Hi3) as K.
    now rewrite H in K. }
  discriminate H.
Qed.

Lemma failed_handshake_is_not_signed_in_witness :
  inactive (snd (__init__ (sample_env true 200) "student" "secret" false
                   (teaching true 200))).
Proof.
  apply (failed_handshake_is_not_signed_in (sample_env true 200) "student"
           "secret" false (teaching true 200)
           (Exception "Signed in successfully, but not as a teacher.")).
  vm_compute. reflexivity.
Defined.



(** *** Reads *)

(** When the service does not list exactly one student, the private lookup
    gives None: [get_student_data] returns None, while [get_student_name],
    [get_results] and [save_result] raise TypeError on [student_data['id']]
    or [student_data["first_name"]], after that one request. *)
Theorem unknown_student
    (E : env) (w : world) (person_nr_raw person_nr : string) (w1 : world) :
  signed_in (self w) = true ->
  __validate_person_nr (now_year E) person_nr_raw = Some person_nr ->
  __get_student_data E person_nr w = (Ok None, w1) ->
  get_student_data E person_nr_raw w = (Ok None, w1)
  /\ get_student_name E person_nr_raw w = (Raise TypeError, w1)
  /\ (forall c, get_results E person_nr_raw c w = (Raise TypeError, w1))
  /\ (forall c m d g sc date,
        list_in g ["AF"; "PF"] = false ->
        (String.eqb g "P" && String.eqb sc "AF")
        || (str_in g "ABCDE" && String.eqb sc "PF") = false ->
        __validate_date d = Some date ->
        save_result E person_nr_raw c m d g sc w = (Raise TypeError, w1)).
Proof.
  intros Hs Hp Hd.
  assert (Hr : require_signed_in w = (Ok tt, w)).
  { unfold require_signed_in. rewrite bind_get_self, Hs. reflexivity. }
  repeat split; intros;
    unfold get_student_data, get_student_name, get_results, save_result,
      save_result_resolve.
  - rewrite (bind_eq _ _ _ _ _ Hr), validate_person_nr_nonempty, Hp.
    assumption.
  - rewrite (bind_eq _ _ _ _ _ Hr), validate_person_nr_nonempty, Hp.
    rewrite (bind_eq _ _ _ _ _ Hd). reflexivity.
  - rewrite (bind_eq _ _ _ _ _ Hr), validate_person_nr_nonempty, Hp.
    rewrite (bind_eq _ _ _ _ _ Hd). reflexivity.
  - apply bind_raise.
    rewrite (bind_eq _ _ _ _ _ Hr), H, H0, validate_person_nr_nonempty, Hp,
      validate_date_nonempty, H1.
    rewrite (bind_eq _ _ _ _ _ Hd). reflexivity.
Qed.

Lemma unknown_student_witness :
  fst (get_student_data (sample_env true 200) "471212-1212"
         (teaching true 200)) = Ok None
  /\ fst (get_student_name (sample_env true 200) "471212-1212"
            (teaching true 200)) = Raise TypeError.
Proof.
  pose (x := __get_student_data (sample_env true 200) "194712121212"
               (teaching true 200)).
  destruct (unknown_student (sample_env true 200) (teaching true 200)
              "471212-1212" "194712121212" (snd x)
              ltac:(vm_compute; reflexivity) ltac:(vm_compute; reflexivity)
              ltac:(vm_compute; reflexivity)) as (H1 & H2 & _).
  rewrite H1, H2. split; reflexivity.
Defined.

(** The courses of a student are read from the participations that are
    current and carry a course code, in the order of the document: the
    others are passed over. *)
Theorem student_courses_current_only (items : list json) :
  forall cs,
    student_courses items = Ok cs ->
    exists kept,
      kept = filter (fun course =>
                       match skip_course course with
                       | Ok false => true
                       | _ => false
                       end) items
      /\ mapR read_course kept = Ok cs
      /\ Forall (fun course =>
                   exists n i,
                     subscript course "Nuvarande" = Ok n /\ truthy n = true
                     /\ subscript course "Utbildningsinformation" = Ok i
                     /\ contains "Utbildningskod" i = Ok true) kept.
Proof.
  induction items as [|course items IH]; intros cs H; simpl in H.
  - inversion H; subst. exists []. repeat split. constructor.
  - apply rbind_Ok in H as (skip & Hskip & H).
    simpl. rewrite Hskip.
    destruct skip.
    + apply IH in H as (kept & -> & Hm & Hf).
      eexists. repeat split; assumption.
    + apply rbind_Ok in H as (c & Hc & H).
      apply rbind_Ok in H as (cs' & Hcs & H).
      inversion H; subst cs; clear H.
      apply IH in Hcs as (kept & -> & Hm & Hf).
      eexists. split; [reflexivity|]. split.
      * simpl. rewrite Hc. simpl. rewrite Hm. reflexivity.
      * constructor; [|assumption].
        unfold skip_course in Hskip.
        apply rbind_Ok in Hskip as (n & Hn & Hskip).
        destruct (truthy n) eqn:Ht; simpl in Hskip; [|discriminate].
        apply rbind_Ok in Hskip as (i & Hi & Hskip).
        apply rbind_Ok in Hskip as (k & Hk & Hskip).
        destruct k; [|discriminate].
        now exists n, i.
Qed.

Lemma student_courses_current_only_witness :
  exists kept,
    kept = filter (fun course =>
                     match skip_course course with
                     | Ok false => true
                     | _ => false
                     end)
                  (the [] (rbind (subscript courses "Tillfallesdeltaganden")
                                 iterate))
    /\ mapR read_course kept
       = Ok [MkCourse (JStr "par1") (JStr "rnd1") (JStr "edu1") (JStr "ins0")
               (JStr "DD1321") (JStr "Tilda")]
    /\ Forall (fun course =>
                 exists n i,
                   subscript course "Nuvarande" = Ok n /\ truthy n = true
                   /\ subscript course "Utbildningsinformation" = Ok i
                   /\ contains "Utbildningskod" i = Ok true) kept.
Proof.
  apply (student_courses_current_only
           (the [] (rbind (subscript courses "Tillfallesdeltaganden")
                          iterate))).
  vm_compute. reflexivity.
Defined.



(** The headers of the write: the headers of the session with the content
    type of a result, the XSRF token taken from the cookie of that name,
    which the session must hold, and the Referer. *)
Theorem save_result_write_headers
    (E : env) (a b c d e f : string) (w : world) (p : Resolved) (w1 : world) :
  save_result_resolve E a b c d e f w = (Ok p, w1) ->
  lookup "Content-Type" (write_headers p)
  = Some "application/vnd.ladok-resultat+json"
  /\ (exists token,
        lookup "XSRF-TOKEN" (cookies w1) = Some token
        /\ lookup "X-XSRF-TOKEN" (write_headers p) = Some token)
  /\ lookup "Referer" (write_headers p) = Some (base_gui_url (self w))
  /\ (forall k, k <> "Content-Type" -> k <> "X-XSRF-TOKEN" -> k <> "Referer" ->
                lookup k (write_headers p) = lookup k (headers (self w))).
Proof.
  intros H.
  pose proof (keeps_self_resolve E a b c d e f w) as K.
  rewrite H in K. simpl in K.
  unfold save_result_resolve in H.
  bind_inv H.
  destruct (list_in e ["AF"; "PF"]); [discriminate|].
  destruct (_ || _); [discriminate|].
  destruct (nonempty (__validate_person_nr _ _)); [|discriminate].
  destruct (nonempty (__validate_date _)); [|discriminate].
  repeat bind_inv H.
  match goal with
  | X : __get_xsrf_token _ = _ |- _ => apply xsrf_Ok in X as (-> & Hs & Hc)
  end.
  apply ret_Ok in H as (<- & <-).
  repeat match goal with
  | X : lift _ _ = (Ok _, _) |- _ => apply lift_Ok in X as (? & ->)
  end.
  match goal with
  | X : get_self _ = (Ok ?o, _) |- _ =>
      unfold get_self in X; inversion X; subst
  end.
  cbn [write_headers]. rewrite K.
  repeat split.
  - rewrite !lookup_dict_set_other by discriminate.
    apply lookup_dict_set_same.
  - eexists. split; [exact Hc|].
    rewrite lookup_dict_set_other by discriminate.
    apply lookup_dict_set_same.
  - apply lookup_dict_set_same.
  - intros k Hk1 Hk2 Hk3.
    rewrite !lookup_dict_set_other by congruence. reflexivity.
Qed.

Lemma save_result_write_headers_witness :
  let x := save_result_resolve (sample_env true 200) "461212-1212" "DD1321"
             "TEN1" "190314" "E" "AF" (teaching true 200) in
  exists token,
    lookup "XSRF-TOKEN" (cookies (snd x)) = Some token
    /\ lookup "X-XSRF-TOKEN"
         (write_headers
            (the (MkResolved EmptyString None (MkCourseResults JNull [])
                    (MkGradeScale 0 JNull JNull []) (MkGrade 0 JNull JNull)
                    [])
                 (fst x))) = Some token.
Proof.
  intros x.
  apply (save_result_write_headers (sample_env true 200) "461212-1212"
           "DD1321" "TEN1" "190314" "E" "AF" (teaching true 200)).
  vm_compute. reflexivity.
Defined.

(** *** The names of a list (the spreadsheet tool) *)

(** [english_name] and [swedish_name] return the text of the first name in
    their language, and None when the list has no name in it. *)
Theorem name_in_first (lang : string) (pre post : list json) (i t : json) :
  Forall (fun x => exists k, subscript x "Sprakkod" = Ok k
                             /\ py_eq k (JStr lang) = false) pre ->
  subscript i "Sprakkod" = Ok (JStr lang) ->
  subscript i "Text" = Ok t ->
  name_in lang (pre ++ i :: post)%list = Ok t
  /\ name_in lang pre = Ok JNull.
Proof.
  intros Hpre Hi Ht. induction Hpre as [|x pre (k & Hk & He) _ [IH1 IH2]];
    simpl.
  - rewrite Hi. simpl. rewrite String.eqb_refl. auto.
  - rewrite Hk. simpl. rewrite He. auto.
Qed.

Lemma name_in_first_witness :
  english_name (JArr [JObj [("Sprakkod", JStr "sv"); ("Text", JStr "Kurs")];
                      JObj [("Sprakkod", JStr "en"); ("Text", JStr "Course")];
                      JObj [("Sprakkod", JStr "en"); ("Text", JStr "Class")]])
  = Ok (JStr "Course").
Proof.
  apply (name_in_first "en"
           [JObj [("Sprakkod", JStr "sv"); ("Text", JStr "Kurs")]]
           [JObj [("Sprakkod", JStr "en"); ("Text", JStr "Class")]]).
  - repeat constructor. exists (JStr "sv"). split; reflexivity.
  - reflexivity.
  - reflexivity.
Defined.

(** *** The credentials test of the handshake *)

Lemma re_search_None (r : regex) (s : string) :
  eos_free r = true ->
  (re_search r s = None <->
   forall a t b, s = a ++ t ++ b -> ~ lang r t).
Proof.
  intros F. induction s as [|c s IH]; simpl.
  - pose proof (re_match_iff_prefix r EmptyString F) as P.
    destruct (re_match r EmptyString) as [m|]; split.
    + discriminate.
    + intros H. exfalso.
      destruct (proj1 P) as (t & rest & Ht & L); [discriminate|].
      apply (H EmptyString t rest); assumption.
    + intros _ a t b Hs L.
      destruct a; [|discriminate Hs]. simpl in Hs.
      apply (proj2 P); [|reflexivity]. now exists t, b.
    + reflexivity.
  - pose proof (re_match_iff_prefix r (String c s) F) as P.
    destruct (re_match r (String c s)) as [m|]; split.
    + discriminate.
    + intros H. exfalso.
      destruct (proj1 P) as (t & rest & Ht & L); [discriminate|].
      apply (H EmptyString t rest); assumption.
    + intros Hn a t b Hs L.
      destruct a as [|c' a]; simpl in Hs.
      * apply (proj2 P); [|reflexivity]. now exists t, b.
      * inversion Hs; subst.
        apply (proj1 IH Hn a t b); [reflexivity | assumption].
    + intros H. apply (proj2 IH).
      intros a t b Hs. apply (H (String c a) t b). simpl. now rewrite Hs.
Qed.

Lemma lang_action_re (t : string) :
  lang action_re t <->
  exists x, t = ("<form action=" ++ q) ++ x
                ++ (q ++ " method=" ++ q ++ "post" ++ q ++ ">")
            /\ all_in CDot x = true.
Proof.
  unfold action_re. split.
  - intros L. inversion L as [| |? ? s1 s2 L1 L2| | | | | | | |]; subst.
    inversion L1; subst.
    inversion L2 as [| |? ? s3 s4 L3 L4| | | | | | | |]; subst.
    inversion L3 as [| | | | | | | | | |? ? ? L5]; subst.
    inversion L5; subst. inversion L4; subst.
    now exists s3.
  - intros (x & -> & Hx).
    apply LSeq; [apply LLit|].
    apply LSeq; [|apply LLit].
    apply LGroup, LStar, Hx.
Qed.

(** The handshake takes the credentials as refused exactly when the reply
    holds no text of the form [<form action=Q...Q method=QpostQ>] (Q the
    double quote) with the dots on one line: then, and with no further
    request, it raises "Invalid username or password."; a reply that holds
    such a text passes the test. *)
Theorem invalid_credentials_iff_no_action_form
    (E : env) (r : response) (w : world) :
  ((forall a x b,
      text r = a ++ (("<form action=" ++ q) ++ x
                       ++ (q ++ " method=" ++ q ++ "post" ++ q ++ ">")) ++ b ->
      all_in CDot x = false) ->
   init_assertion E r w
   = (Raise (Exception "Invalid username or password."), w))
  /\ (forall a x b,
        text r = a ++ (("<form action=" ++ q) ++ x
                         ++ (q ++ " method=" ++ q ++ "post" ++ q ++ ">")) ++ b ->
        all_in CDot x = true ->
        re_search action_re (text r) <> None).
Proof.
  split.
  - intros H. unfold init_assertion.
    assert (Hn : re_search action_re (text r) = None).
    { apply re_search_None; [reflexivity|].
      intros a t b Hs L. apply lang_action_re in L as (x & -> & Hx).
      rewrite (H a x b Hs) in Hx. discriminate. }
    now rewrite Hn.
  - intros a x b Hs Hx Hn.
    apply (proj1 (re_search_None action_re (text r) eq_refl) Hn a _ b Hs).
    apply lang_action_re. now exists x.
Qed.

Lemma invalid_credentials_iff_no_action_form_witness :
  init_assertion (sample_env true 200)
    (MkResponse 200 EmptyString EmptyString None []) nothing
  = (Raise (Exception "Invalid username or password."), nothing)
  /\ re_search action_re assertion_form <> None.
Proof.
  split.
  - apply (proj1 (invalid_credentials_iff_no_action_form (sample_env true 200)
                    (MkResponse 200 EmptyString EmptyString None []) nothing)).
    intros a x b Hs. destruct a; discriminate Hs.
  - apply (proj2 (invalid_credentials_iff_no_action_form (sample_env true 200)
                    (MkResponse 200 EmptyString assertion_form None [])
                    nothing)
                 "<html>" (ladok ++ "/Shibboleth.sso/SAML2/POST")
                 (hidden "RelayState" "ss:mem:1" "/>"
                    ++ hidden "SAMLResponse" "PHNhbWw+" "/>"
                    ++ "</form></html>")).
    + vm_compute. reflexivity.
    + vm_compute. reflexivity.
Defined.

(** *** The plain accessors *)

Lemma session_get_one_get E u w url :
  session (self w) = true -> u (self w) = Ok url ->
  one_get (session_get E u) w url.
Proof.
  intros Hs Hu. unfold one_get, session_get.
  rewrite bind_get_self, Hs. unfold bind at 1 2, lift. rewrite Hu.
  split; [apply trace_http | apply keeps_self_http].
Qed.

Lemma one_get_guarded {A : Type} E u (k : response -> M A) w url :
  signed_in (self w) = true -> session (self w) = true ->
  u (self w) = Ok url ->
  (forall r w0, snd (k r w0) = w0) ->
  one_get (bind require_signed_in (fun _ => bind (session_get E u) k)) w url.
Proof.
  intros Hs Hss Hu Hk.
  assert (Hr : require_signed_in w = (Ok tt, w)).
  { unfold require_signed_in. rewrite bind_get_self, Hs. reflexivity. }
  unfold one_get. rewrite (bind_eq _ _ _ _ _ Hr).
  rewrite snd_bind_pure by assumption.
  now apply session_get_one_get.
Qed.

(** On a signed-in session each of [get_student_data_by_uid_JSON],
    [grading_rights], [change_locale], [course_instances_JSON],
    [organization_info_JSON], [examen_student_uid_JSON] and, for a person
    number that normalises, [get_student_data] and [get_student_data_JSON]
    makes exactly one request, whatever the service answers: a GET of the
    address below with the headers of the session; the object is left as it
    was.  The address of [examen_student_uid_JSON] is the proxy address
    followed directly by "examen/student/+studentUID". *)
Theorem accessors_make_one_get (E : env) (w : world) :
  signed_in (self w) = true -> session (self w) = true ->
  (forall uid,
     one_get (get_student_data_by_uid_JSON E uid) w
       (base_gui_proxy_url (self w) ++ "/studentinformation/student/" ++ uid))
  /\ one_get (grading_rights E) w
       (base_gui_proxy_url (self w)
          ++ "/resultat/resultatrattighet/listaforinloggadanvandare")
  /\ (forall lang,
        one_get (change_locale E lang) w
          (base_gui_url (self w) ++ "/services/i18n/changeLocale?lang=" ++ lang))
  /\ (forall code lang,
        one_get (course_instances_JSON E code lang) w
          (base_gui_proxy_url (self w)
             ++ "/resultat/kurstillfalle/filtrera?kurskod=" ++ code
             ++ "&page=1&limit=100&skipCount=false&sprakkod=" ++ lang))
  /\ one_get (organization_info_JSON E) w
       (base_gui_proxy_url (self w) ++ "/resultat/organisation/utanlankar")
  /\ one_get (examen_student_uid_JSON E) w
       (base_gui_proxy_url (self w) ++ "examen/student/+studentUID")
  /\ (forall raw pnr lang,
        __validate_person_nr (now_year E) raw = Some pnr ->
        one_get (get_student_data E raw) w
          (base_gui_proxy_url (self w)
             ++ "/studentinformation/student/filtrera?limit=2&orderby=EFTERNAMN_ASC&orderby=FORNAMN_ASC&orderby=PERSONNUMMER_ASC&page=1&personnummer="
             ++ pnr ++ "&skipCount=false&sprakkod=sv")
        /\ one_get (get_student_data_JSON E raw lang) w
             (base_gui_proxy_url (self w)
                ++ "/studentinformation/student/filtrera?limit=2&orderby=EFTERNAMN_ASC&orderby=FORNAMN_ASC&orderby=PERSONNUMMER_ASC&page=1&personnummer="
                ++ pnr ++ "&skipCount=false&sprakkod=" ++ lang)).
Proof.
  intros Hs Hss.
  assert (Hl : forall (A : Type) (x : result A) (r : response) (w0 : world),
            snd (lift x w0) = w0) by reflexivity.
  repeat split; intros;
    try (unfold get_student_data, get_student_data_JSON, __get_student_data;
         rewrite validate_person_nr_nonempty, H);
    try (apply one_get_guarded; auto; intros; reflexivity);
    try (eapply (one_get_guarded E _ _ w); auto; intros; reflexivity).
Qed.

Lemma accessors_make_one_get_witness :
  one_get (examen_student_uid_JSON (sample_env true 200)) (teaching true 200)
    "https://www.start.ladok.se/gui/proxyexamen/student/+studentUID".
Proof.
  apply (accessors_make_one_get (sample_env true 200) (teaching true 200));
    vm_compute; reflexivity.
Defined.

(** The attested results that lack a grade code, a date or a course code
    are passed over in silence: the dict is what it would be without
    them. *)
Theorem attested_loop_skips_incomplete
    (pre post : list json) (x : json) (d : list (json * ResultEntry)) :
  (subscript x "Betygsgradskod" = Raise (KeyError "Betygsgradskod")
   \/ subscript x "Examinationsdatum" = Raise (KeyError "Examinationsdatum")
   \/ subscript x "Utbildningskod" = Raise (KeyError "Utbildningskod")
   \/ subscript x "Betygsgradskod" = Raise TypeError) ->
  attested_loop (pre ++ x :: post)%list d = attested_loop (pre ++ post)%list d.
Proof.
  intros H. unfold attested_loop. rewrite !fold_left_app. simpl.
  assert (Hn : attested_entry x = None).
  { unfold attested_entry.
    destruct H as [H | [H | [H | H]]]; rewrite H;
      repeat match goal with
             | |- context [match ?r with Ok _ => _ | Raise _ => _ end] =>
                 destruct r
             end; reflexivity. }
  now rewrite Hn.
Qed.

Lemma attested_loop_skips_incomplete_witness :
  attested_loop
    ([JObj [("Betygsgradskod", JStr "P"); ("Examinationsdatum", JStr "2019-01-14");
            ("Utbildningskod", JStr "LAB1")]]
     ++ JObj [("Examinationsdatum", JStr "2018-06-01"); ("Utbildningskod", JNull)]
        :: [])
    []
  = attested_loop
      ([JObj [("Betygsgradskod", JStr "P");
              ("Examinationsdatum", JStr "2019-01-14");
              ("Utbildningskod", JStr "LAB1")]] ++ [])
      [].
Proof.
  apply (attested_loop_skips_incomplete
           [JObj [("Betygsgradskod", JStr "P");
                  ("Examinationsdatum", JStr "2019-01-14");
                  ("Utbildningskod", JStr "LAB1")]]
           []
           (JObj [("Examinationsdatum", JStr "2018-06-01");
                  ("Utbildningskod", JNull)])).
  left. reflexivity.
Defined.

End SessionMore.
